(** * odincontrib_aws.dynamodb.query: query builders and the paged cursor

    A shallow embedding of [src/odincontrib_aws/dynamodb/query.py].

    - Request parameters ([self._params], the keyword arguments of the remote
      primitive) are a Python [dict] keyed by strings: a [gmap string Value].
    - The operation object ([QueryBase], [Scan], [Query]) is a record; methods
      that mutate [self] take the record and return the updated one.
    - The remote primitives [session.client.scan] / [session.client.query] are
      external: the store holds the responses they are going to give, in call
      order, and a log of the calls issued.
    - [PagedQueryResult.__iter__] is a generator: it is embedded as an explicit
      resumable state ([Generator]) with a [next] function; the cursor object
      (its counters) lives in the store, because every generator created from
      one cursor updates the same attributes. *)

From stdpp Require Import gmap strings list.

Set Warnings "-register-all".

Open Scope string_scope.
Open Scope list_scope.

(** ** Values *)

(** JSON-like values exchanged with the remote primitives. [VNone] is Python's
    [None]. *)
Inductive Value :=
| VNone
| VStr (s : string)
| VInt (z : Z)
| VList (l : list Value)
| VDict (d : list (string * Value)).

Inductive Exception :=
| TypeError (msg : string)
| AssertionError
| KeyError (key : string)
| AttributeError (name : string)
| BackendError (msg : string)
| Unmodelled (what : string).

(** Request parameters: [self._params] and the keyword arguments of a call. *)
Abbreviation Params := (gmap string Value).

(** A session ([odincontrib_aws] session object); only its identity matters
    here, it is handed to [table_name] and owns the client. *)
Record Session := { session_name : string }.

(** ** Table metadata *)

Module Field.
(** A key field of a table: [f.name], [f.prepare_dynamo(v)]. *)
Record t := { name : string; prepare_dynamo : Value -> Value }.
End Field.

Module Table.
(** [table._meta.table_name(session)] and [table._meta.key_fields]. *)
Record t := {
    table_name : Session -> string;
    key_fields : list Field.t
  }.
End Table.

Module Index.
(** [odincontrib_aws.dynamodb.indexes.Index]: [index.name], [index.table]. *)
Record t := { name : string; table : Table.t }.
End Index.

Abbreviation Field := Field.t.
Abbreviation Table := Table.t.
Abbreviation Index := Index.t.

(** A key value of a [Query]: the sentinel [NOT_PROVIDED] of [odin.fields], or
    a value. *)
Inductive KeyValue :=
| NOT_PROVIDED
| Provided (v : Value).

(** Objects passed positionally to the constructors. *)
Inductive PyObj :=
| PKey (k : KeyValue)
| PSession (s : Session)
| PTable (t : Table)
| PIndex (i : Index).

(** ** The operation object *)

Inductive Class := Scan | Query.

(** [self._command]: which bound method of [session.client] is invoked. *)
Inductive Command := client_scan | client_query.

(** The attributes of a [Scan] or [Query] instance. [hash_value] and
    [_range_value] exist on [Query] instances only; on a [Scan] they are never
    read. *)
Record QueryBase := {
  __class__ : Class;
  session : Session;
  table : Table;
  index : option Index;
  _expression_attributes : Params;
  _params : Params;
  _command : Command;
  hash_value : KeyValue;
  _range_value : KeyValue
}.

Definition set_params (self : QueryBase) (p : Params) : QueryBase :=
  {| __class__ := __class__ self; session := session self; table := table self;
     index := index self; _expression_attributes := _expression_attributes self;
     _params := p; _command := _command self;
     hash_value := hash_value self; _range_value := _range_value self |}.

Definition set_range_value (self : QueryBase) (v : KeyValue) : QueryBase :=
  {| __class__ := __class__ self; session := session self; table := table self;
     index := index self; _expression_attributes := _expression_attributes self;
     _params := _params self; _command := _command self;
     hash_value := hash_value self; _range_value := v |}.

(** Error-or-result, with the usual bind. *)
Definition Result (A : Type) : Type := Exception + A.

Definition bind {A B} (r : Result A) (k : A -> Result B) : Result B :=
  match r with
  | inl e => inl e
  | inr a => k a
  end.

Notation "'try' x := r 'in' k" := (bind r (fun x => k))
  (at level 10, x name, r at level 100, k at level 200, only parsing).

(** *** Constructors (lines 96-108, 220-222, 229-234)

    The constructors receive their positional arguments as Python does: a
    sequence. A wrong number of arguments raises [TypeError]. Two arguments of
    the wrong sort are stored by Python without complaint; the typed record
    cannot hold them and the embedding answers [Unmodelled].

    The record describes constructed [Scan] and [Query] instances.
    [QueryBase.__init__] leaves [_command] at [None] and both subclasses
    assign it next; the class, the command and the key values that
    [QueryBase__init__] puts in the record are those of a [Scan], and
    [Query__init__] replaces them. *)

Definition QueryBase__init__ (args : list PyObj) : Result QueryBase :=
  match args with
  | [PSession session; PIndex table_of_index] =>
      inr {| __class__ := Scan; session := session;
             table := Index.table table_of_index;
             index := Some table_of_index;
             _expression_attributes := ∅; _params := ∅;
             _command := client_scan;
             hash_value := NOT_PROVIDED; _range_value := NOT_PROVIDED |}
  | [PSession session; PTable table_of_index] =>
      inr {| __class__ := Scan; session := session;
             table := table_of_index;
             index := None;
             _expression_attributes := ∅; _params := ∅;
             _command := client_scan;
             hash_value := NOT_PROVIDED; _range_value := NOT_PROVIDED |}
  | [_; _] => inl (Unmodelled "session or table of another type")
  | [] =>
      inl (TypeError "__init__() missing 2 required positional arguments: 'session' and 'table_of_index'")
  | [_] =>
      inl (TypeError "__init__() missing 1 required positional argument: 'table_of_index'")
  | _ => inl (TypeError "__init__() takes 3 positional arguments but more were given")
  end.

(** [Scan.__init__]: [def __init__(self, *args)] *)
Definition Scan__init__ (args : list PyObj) : Result QueryBase :=
  try self := QueryBase__init__ args in
  inr {| __class__ := Scan; session := session self; table := table self;
         index := index self;
         _expression_attributes := _expression_attributes self;
         _params := _params self;
         _command := client_scan;
         hash_value := NOT_PROVIDED; _range_value := NOT_PROVIDED |}.

(** [Query.__init__]: [def __init__(self, hash_value, *args)] *)
Definition Query__init__ (args : list PyObj) : Result QueryBase :=
  match args with
  | [] => inl (TypeError "__init__() missing 1 required positional argument: 'hash_value'")
  | hash_value :: args =>
      try self := QueryBase__init__ args in
      try hash_value := match hash_value with
                        | PKey k => inr k
                        | _ => inl (Unmodelled "hash value of another type")
                        end in
      inr {| __class__ := Query; session := session self; table := table self;
             index := index self;
             _expression_attributes := _expression_attributes self;
             _params := _params self;
             _command := client_query;
             hash_value := hash_value; _range_value := NOT_PROVIDED |}
  end.

(** Calling a class with positional arguments [args]. *)
Definition new (cls : Class) (args : list PyObj) : Result QueryBase :=
  match cls with
  | Scan => Scan__init__ args
  | Query => Query__init__ args
  end.

(** *** Parameter assembly (lines 113-118, 236-247) *)

(** [d[k] = v] on an insertion-ordered dict: an existing key keeps its place. *)
Fixpoint dict_setitem (d : list (string * Value)) (k : string) (v : Value)
  : list (string * Value) :=
  match d with
  | [] => [(k, v)]
  | (k', v') :: d' =>
      if String.eqb k' k then (k', v) :: d' else (k', v') :: dict_setitem d' k v
  end.

(** [v is not NOT_PROVIDED] *)
Definition is_provided (v : KeyValue) : bool :=
  match v with
  | NOT_PROVIDED => false
  | Provided _ => true
  end.

(** The dict comprehension of lines 242-245, over [zip(key_fields, key_values)]. *)
Definition key_conditions (key_fields : list Field) (key_values : list KeyValue)
  : list (string * Value) :=
  fold_left
    (fun d fv =>
       match snd fv with
       | NOT_PROVIDED => d
       | Provided v =>
           dict_setitem d (Field.name (fst fv))
             (VDict [("AttributeValueList",
                      VList [Field.prepare_dynamo (fst fv) v])])
       end)
    (zip key_fields key_values) [].

(** [QueryBase._get_params]: [params] is [self._params] itself, so the writes
    land in the operation's own dict; the returned dict is that same object. *)
Definition QueryBase_get_params (self : QueryBase) : Params * QueryBase :=
  let params := _params self in
  let params := <["TableName" := VStr (Table.table_name (table self) (session self))]> params in
  let params :=
    match index self with
    | Some i => <["IndexName" := VStr (Index.name i)]> params
    | None => params
    end in
  (params, set_params self params).

(** [Query._get_params] *)
Definition Query_get_params (self : QueryBase) : Params * QueryBase :=
  let '(params, self) := QueryBase_get_params self in
  let key_fields := Table.key_fields (table self) in
  let key_values := [hash_value self; _range_value self] in
  let params := <["KeyConditions" := VDict (key_conditions key_fields key_values)]> params in
  (params, set_params self params).

(** Method dispatch on [self.__class__]. *)
Definition _get_params (self : QueryBase) : Params * QueryBase :=
  match __class__ self with
  | Scan => QueryBase_get_params self
  | Query => Query_get_params self
  end.

(** *** Builder methods (lines 120-126, 141-213, 249-254) *)

(** [copy]: [self.__class__(self.session, self.table)], then the new object
    receives [self._params.copy()]. *)
Definition copy (self : QueryBase) : Result QueryBase :=
  try query := new (__class__ self) [PSession (session self); PTable (table self)] in
  inr (set_params query (_params self)).

(** [params]: [self._params.update(params)], the new entries win. *)
Definition params (kwargs : Params) (self : QueryBase) : QueryBase :=
  set_params self (kwargs ∪ _params self).

(** The body of the function defined at lines 147-154 under the name [index]. *)
Definition QueryBase_index (name : Value) (self : QueryBase) : QueryBase :=
  set_params self (<["IndexName" := name]> (_params self)).

Definition limit (value : Value) (self : QueryBase) : QueryBase :=
  set_params self (<["Limit" := value]> (_params self)).

(** [value in (s1, ..., sn)] for a tuple of strings. *)
Definition value_in (value : Value) (choices : list string) : bool :=
  match value with
  | VStr s => existsb (String.eqb s) choices
  | _ => false
  end.

Definition select_choices : list string :=
  ["ALL_ATTRIBUTES"; "ALL_PROJECTED_ATTRIBUTES"; "COUNT"; "SPECIFIC_ATTRIBUTES"].

Definition consumed_capacity_choices : list string :=
  ["INDEXES"; "TOTAL"; "NONE"].

Definition select (value : Value) (self : QueryBase) : Result QueryBase :=
  if value_in value select_choices
  then inr (set_params self (<["Select" := value]> (_params self)))
  else inl AssertionError.

Definition consumed_capacity (value : Value) (self : QueryBase) : Result QueryBase :=
  if value_in value consumed_capacity_choices
  then inr (set_params self (<["ReturnConsumedCapacity" := value]> (_params self)))
  else inl AssertionError.

(** [Query.range] *)
Definition range (value : KeyValue) (self : QueryBase) : QueryBase :=
  set_range_value self value.

(** *** Attribute lookup on an instance

    [obj.name] finds the instance's own attribute of that name first; a
    function of the class is found only when the instance has none. The
    instance attributes are the ones [__init__] assigns (lines 97-108). *)

Inductive Attribute :=
| AFunction (f : Value -> QueryBase -> Result QueryBase)
| ANone
| AIndex (i : Index)
| AData.

Definition instance_attribute (self : QueryBase) (name : string)
  : option Attribute :=
  if String.eqb name "index" then
    Some match index self with
         | Some i => AIndex i
         | None => ANone
         end
  else if existsb (String.eqb name)
            ["session"; "table"; "_expression_attributes"; "_params"; "_command"]
  then Some AData
  else None.

(** The one-argument builder methods that the class [cls] offers: those of
    [QueryBase], and [range] on a [Query]. *)
Definition class_attribute (cls : Class) (name : string) : option Attribute :=
  if String.eqb name "index" then
    Some (AFunction (fun v self => inr (QueryBase_index v self)))
  else if String.eqb name "limit" then
    Some (AFunction (fun v self => inr (limit v self)))
  else if String.eqb name "select" then Some (AFunction select)
  else if String.eqb name "consumed_capacity" then
    Some (AFunction consumed_capacity)
  else if String.eqb name "range" then
    match cls with
    | Query => Some (AFunction (fun v self => inr (range (Provided v) self)))
    | Scan => None
    end
  else None.

Definition getattr (self : QueryBase) (name : string) : option Attribute :=
  match instance_attribute self name with
  | Some a => Some a
  | None => class_attribute (__class__ self) name
  end.

(** [self.name(arg)] *)
Definition call_method (name : string) (arg : Value) (self : QueryBase)
  : Result QueryBase :=
  match getattr self name with
  | Some (AFunction f) => f arg self
  | Some ANone => inl (TypeError "'NoneType' object is not callable")
  | Some (AIndex _) => inl (Unmodelled "calling an Index object")
  | Some AData => inl (TypeError "object is not callable")
  | None => inl (AttributeError name)
  end.

(** ** Responses and the single-page view (lines 12-46) *)

(** The raw response dict of the remote primitive; an absent key is [None].
    [LastEvaluatedKey], when present, is a mapping. *)
Record Response := {
  Items : option (list Value);
  Count : option Z;
  ScannedCount : option Z;
  ConsumedCapacity : option Value;
  LastEvaluatedKey : option (list (string * Value))
}.

(** [d[key]] *)
Definition getitem {A} (key : string) (entry : option A) : Result A :=
  match entry with
  | Some a => inr a
  | None => inl (KeyError key)
  end.

Definition raw_results (_result : Response) : Result (list Value) :=
  getitem "Items" (Items _result).

Definition QueryResult_count (_result : Response) : Result Z :=
  getitem "Count" (Count _result).

Definition QueryResult_scanned (_result : Response) : Result Z :=
  getitem "ScannedCount" (ScannedCount _result).

(** [self._result.get('LastEvaluatedKey')] *)
Definition last_evaluated_key (_result : Response) : Value :=
  match LastEvaluatedKey _result with
  | Some k => VDict k
  | None => VNone
  end.

(** [v is None] *)
Definition is_None (v : Value) : bool :=
  match v with
  | VNone => true
  | _ => false
  end.

(** ** The paged cursor (lines 49-89) *)

Module PagedQueryResult.
(** The attributes of the cursor besides [query]. *)
Record t := { pages : Z; count : Z; scanned : Z; last_page : bool }.
End PagedQueryResult.

Import PagedQueryResult.

Definition PagedQueryResult__init__ : PagedQueryResult.t :=
  {| pages := 0%Z; count := 0%Z; scanned := 0%Z; last_page := false |}.

(** The store: the operation object, the cursor object that refers to it,
    the responses the remote primitive is going to give, and the calls issued
    so far (oldest first). *)
Record World := {
  query : QueryBase;
  cursor : PagedQueryResult.t;
  script : list (Result Response);
  calls : list (Command * Params)
}.

Definition set_query (w : World) (q : QueryBase) : World :=
  {| query := q; cursor := cursor w; script := script w; calls := calls w |}.

Definition set_cursor (w : World) (c : PagedQueryResult.t) : World :=
  {| query := query w; cursor := c; script := script w; calls := calls w |}.

(** One remote call has been issued with [params]; [rest] is what the remote
    primitive still has to say. *)
Definition called (c : Command) (params : Params)
    (rest : list (Result Response)) (w : World) : World :=
  {| query := query w; cursor := cursor w; script := rest;
     calls := calls w ++ [(c, params)] |}.

(** [self._command( **params)] *)
Definition invoke (c : Command) (params : Params) (w : World)
  : Result Response * World :=
  match script w with
  | [] => (inl (BackendError "no response"), called c params [] w)
  | response :: rest => (response, called c params rest w)
  end.

(** [single] (lines 128-133): the page view is the response itself. *)
Definition single (w : World) : Result Response * World :=
  let '(params, q) := _get_params (query w) in
  invoke (_command q) params (set_query w q).

(** [all] (lines 135-139): a new cursor object on the same operation. *)
Definition all (w : World) : World :=
  set_cursor w PagedQueryResult__init__.

(** A builder method called on the operation of the store: on an exception
    nothing has changed. No builder method reaches the remote primitive. *)
Definition configure (method : QueryBase -> Result QueryBase) (w : World)
  : option Exception * World :=
  match method (query w) with
  | inl e => (Some e, w)
  | inr q => (None, set_query w q)
  end.

(** The generator object made by [PagedQueryResult.__iter__]. Its locals are
    [params] and [results]; [table] and [pending] are those of the inner
    generator [QueryResult.__iter__] (the table read when the page was opened,
    the raw items not yet produced). *)
Inductive Generator :=
| Created
| Suspended (params : Params) (results : Response) (table : Table)
            (pending : list Value)
| Finished.

(** ** Reading a run of pages off the responses *)

Definition has_key (r : Response) : Prop := is_Some (LastEvaluatedKey r).

(** The required keys are there. *)
Definition complete (r : Response) : Prop :=
  is_Some (Items r) /\ is_Some (Count r) /\ is_Some (ScannedCount r).

Definition items_of (r : Response) : list Value := default [] (Items r).

Definition Zsum (l : list Z) : Z := foldr Z.add 0%Z l.

(** The cursor after one more page. *)
Definition tally1 (c : PagedQueryResult.t) (r : Response) : PagedQueryResult.t :=
  {| pages := (pages c + 1)%Z;
     count := (count c + default 0 (Count r))%Z;
     scanned := (scanned c + default 0 (ScannedCount r))%Z;
     last_page := is_None (last_evaluated_key r) |}.

Definition tally (c : PagedQueryResult.t) (rs : list Response) : PagedQueryResult.t :=
  fold_left tally1 rs c.

(** The number of items the responses to come hold. *)
Fixpoint script_items (responses : list (Result Response)) : nat :=
  match responses with
  | [] => 0
  | inl _ :: rest => script_items rest
  | inr r :: rest => length (items_of r) + script_items rest
  end.

(** The parameters of the successive calls: each page's key goes into the
    parameters of the next call. *)
Fixpoint thread (params : Params) (rs : list Response) : list Params :=
  match rs with
  | [] => []
  | r :: rs =>
      params :: thread (<["ExclusiveStartKey" := last_evaluated_key r]> params) rs
  end.

(** The generator's own parameters once the pages [rs] have been gone
    through: every page's key was written over the one before. *)
Definition threaded (params : Params) (rs : list Response) : Params :=
  fold_left (fun p r => <["ExclusiveStartKey" := last_evaluated_key r]> p) rs params.

(** The entry of one key field: [{'AttributeValueList': [f.prepare_dynamo(v)]}]
    under [f.name]. *)
Definition key_condition (f : Field) (v : Value) : string * Value :=
  (Field.name f, VDict [("AttributeValueList", VList [Field.prepare_dynamo f v])]).

(** The items of the open page that a generator has still to give. *)
Definition pending_of (g : Generator) : nat :=
  match g with
  | Suspended _ _ _ pending => length pending
  | _ => 0
  end.

(** ** Concrete objects used in the examples below *)

Definition id_field : Field :=
  {| Field.name := "id"; Field.prepare_dynamo := fun v => VDict [("S", v)] |}.

Definition ts_field : Field :=
  {| Field.name := "ts"; Field.prepare_dynamo := fun v => VDict [("N", v)] |}.

(** A table with a hash key only, and one with a hash and a range key. *)
Definition hash_table : Table :=
  {| Table.table_name := fun s => (session_name s ++ "-books")%string;
     Table.key_fields := [id_field] |}.

Definition hash_range_table : Table :=
  {| Table.table_name := fun s => (session_name s ++ "-events")%string;
     Table.key_fields := [id_field; ts_field] |}.

Definition by_ts : Index :=
  {| Index.name := "by_ts"; Index.table := hash_range_table |}.

Definition dev : Session := {| session_name := "dev" |}.

(** [Scan(dev, hash_table)] *)
Definition a_scan : QueryBase :=
  {| __class__ := Scan; session := dev; table := hash_table; index := None;
     _expression_attributes := ∅; _params := ∅; _command := client_scan;
     hash_value := NOT_PROVIDED; _range_value := NOT_PROVIDED |}.

(** [Query("a", dev, hash_table)] *)
Definition a_query : QueryBase :=
  {| __class__ := Query; session := dev; table := hash_table; index := None;
     _expression_attributes := ∅; _params := ∅; _command := client_query;
     hash_value := Provided (VStr "a"); _range_value := NOT_PROVIDED |}.

(** [Query("a", dev, hash_table).range(5)] *)
Definition a_ranged_query : QueryBase := range (Provided (VInt 5)) a_query.

(** [Query("a", dev, hash_range_table)] *)
Definition an_event_query : QueryBase :=
  {| __class__ := Query; session := dev; table := hash_range_table;
     index := None;
     _expression_attributes := ∅; _params := ∅; _command := client_query;
     hash_value := Provided (VStr "a"); _range_value := NOT_PROVIDED |}.

(** Responses: two items and a key; no item and a key; one item, no key; and
    one more page without key. *)
Definition page_a : Response :=
  {| Items := Some [VStr "a1"; VStr "a2"]; Count := Some 2%Z;
     ScannedCount := Some 5%Z; ConsumedCapacity := None;
     LastEvaluatedKey := Some [("id", VStr "a2")] |}.

Definition page_empty : Response :=
  {| Items := Some []; Count := Some 0%Z;
     ScannedCount := Some 7%Z; ConsumedCapacity := None;
     LastEvaluatedKey := Some [("id", VStr "m")] |}.

Definition page_z : Response :=
  {| Items := Some [VStr "z1"]; Count := Some 1%Z;
     ScannedCount := Some 1%Z; ConsumedCapacity := None;
     LastEvaluatedKey := None |}.

Definition page_y : Response :=
  {| Items := Some [VStr "y1"]; Count := Some 1%Z;
     ScannedCount := Some 3%Z; ConsumedCapacity := None;
     LastEvaluatedKey := None |}.

(** A store where the remote primitive is going to answer these four. *)
Definition world0 : World :=
  {| query := a_scan; cursor := PagedQueryResult__init__;
     script := map inr [page_a; page_empty; page_z] ++ [inr page_y];
     calls := [] |}.

(** A decoder that keeps the raw item. *)
Definition plain (item : Value) (t : Table) : Value := item.

(** The store after [list(cursor)] on [all world0], and after a second
    [list(cursor)] on the same cursor. *)
Definition world1 : World :=
  {| query := (_get_params a_scan).2;
     cursor := {| pages := 3%Z; count := 3%Z; scanned := 13%Z; last_page := true |};
     script := [inr page_y];
     calls := map (pair client_scan)
                (thread (_get_params a_scan).1 [page_a; page_empty; page_z]) |}.

Definition world2 : World :=
  {| query := (_get_params a_scan).2;
     cursor := {| pages := 4%Z; count := 4%Z; scanned := 16%Z; last_page := true |};
     script := [];
     calls := calls world1 ++ [(client_scan, (_get_params a_scan).1)] |}.

(** A response as the remote primitive gives it when only a count was asked
    for: no [Items]. And one that lacks [Count]. *)
Definition page_count_only : Response :=
  {| Items := None; Count := Some 4%Z;
     ScannedCount := Some 9%Z; ConsumedCapacity := None;
     LastEvaluatedKey := None |}.

Definition page_no_count : Response :=
  {| Items := Some [VStr "n1"]; Count := None;
     ScannedCount := Some 2%Z; ConsumedCapacity := None;
     LastEvaluatedKey := None |}.

(** Stores where the second call fails, or is answered without [Items], or
    without [Count]. *)
Definition world_throttled : World :=
  {| query := a_scan; cursor := PagedQueryResult__init__;
     script := map inr [page_a] ++ inl (BackendError "throttled") :: [inr page_z];
     calls := [] |}.

Definition world_count_only : World :=
  {| query := a_scan; cursor := PagedQueryResult__init__;
     script := map inr [page_a] ++ inr page_count_only :: [];
     calls := [] |}.

Definition world_no_count : World :=
  {| query := a_scan; cursor := PagedQueryResult__init__;
     script := map inr [page_a] ++ inr page_no_count :: [];
     calls := [] |}.

(** [Query("a", dev, by_ts).range(5)], a store where it is about to be
    traversed, and the traversal after two pulls: the first page is used up
    and the next pull has to fetch. *)
Definition an_index_query : QueryBase :=
  {| __class__ := Query; session := dev; table := hash_range_table;
     index := Some by_ts;
     _expression_attributes := ∅; _params := ∅; _command := client_query;
     hash_value := Provided (VStr "a"); _range_value := Provided (VInt 5) |}.

Definition world_index_query : World :=
  {| query := an_index_query; cursor := PagedQueryResult__init__;
     script := map inr [page_a; page_empty; page_z] ++ [inr page_y];
     calls := [] |}.

Definition world_page_end : World :=
  {| query := (_get_params an_index_query).2;
     cursor := {| pages := 1%Z; count := 2%Z; scanned := 5%Z; last_page := false |};
     script := map inr [page_empty; page_z] ++ [inr page_y];
     calls := [(client_query, (_get_params an_index_query).1)] |}.

Definition page_end : Generator :=
  Suspended (_get_params an_index_query).1 page_a hash_range_table [].

(** A store where the first response is a last page. *)
Definition world_one_page : World :=
  {| query := a_scan; cursor := PagedQueryResult__init__;
     script := inr page_z :: [inr page_y];
     calls := [] |}.

(** [Scan(dev, hash_table).limit(25)] and a store with it. *)
Definition a_limited_scan : QueryBase := limit (VInt 25) a_scan.

Definition world_limited : World :=
  {| query := a_limited_scan; cursor := PagedQueryResult__init__;
     script := map inr ([page_a; page_empty] ++ [page_z]) ++ [];
     calls := [] |}.

(** [Scan(dev, by_ts)] *)
Definition an_index_scan : QueryBase :=
  {| __class__ := Scan; session := dev; table := hash_range_table;
     index := Some by_ts;
     _expression_attributes := ∅; _params := ∅; _command := client_scan;
     hash_value := NOT_PROVIDED; _range_value := NOT_PROVIDED |}.

Section Traversal.

Context {Resource : Type}.

(** [odin.resources.create_resource_from_dict(item, table, ...)] *)
Variable create_resource_from_dict : Value -> Table -> Resource.

(** What one [next(generator)] gives. *)
Inductive Next :=
| Yield (result : Resource)
| StopIteration
| Raise (e : Exception).

Definition Step : Type := Next * Generator * World.

(** Lines 79-89: produce the next item of the open page; when the page is
    used up, stop or go for the next page, as [self.last_page] says. *)
Definition emit (fetch : Params -> World -> Step)
    (params : Params) (results : Response) (table : Table)
    (pending : list Value) (w : World) : Step :=
  match pending with
  | item :: pending' =>
      (Yield (create_resource_from_dict item table),
       Suspended params results table pending', w)
  | [] =>
      if last_page (cursor w)
      then (StopIteration, Finished, w)
      else fetch (<["ExclusiveStartKey" := last_evaluated_key results]> params) w
  end.

(** Lines 67-80: one turn of [while True] from its head to the first
    [yield]; [responses] is what the remote primitive has to say. *)
Fixpoint fetch_from (responses : list (Result Response))
    (params : Params) (w : World) : Step :=
  let c := _command (query w) in
  match responses with
  | [] => (Raise (BackendError "no response"), Finished, called c params [] w)
  | response :: rest =>
      let w := called c params rest w in
      match response with
      | inl e => (Raise e, Finished, w)
      | inr results =>
          let self := cursor w in
          let w := set_cursor w
            {| pages := (pages self + 1)%Z; count := count self;
               scanned := scanned self; last_page := last_page self |} in
          match QueryResult_count results with
          | inl e => (Raise e, Finished, w)
          | inr n =>
          let self := cursor w in
          let w := set_cursor w
            {| pages := pages self; count := (count self + n)%Z;
               scanned := scanned self; last_page := last_page self |} in
          match QueryResult_scanned results with
          | inl e => (Raise e, Finished, w)
          | inr n =>
          let self := cursor w in
          let w := set_cursor w
            {| pages := pages self; count := count self;
               scanned := (scanned self + n)%Z;
               last_page := is_None (last_evaluated_key results) |} in
          let table := table (query w) in
          match raw_results results with
          | inl e => (Raise e, Finished, w)
          | inr items => emit (fetch_from rest) params results table items w
          end end end
      end
  end.

Definition fetch (params : Params) (w : World) : Step :=
  fetch_from (script w) params w.

(** [next(generator)] *)
Definition next (g : Generator) (w : World) : Step :=
  match g with
  | Created =>
      let '(params, q) := _get_params (query w) in
      fetch params (set_query w q)
  | Suspended params results table pending =>
      emit fetch params results table pending w
  | Finished => (StopIteration, Finished, w)
  end.

(** [PagedQueryResult.__iter__]: calling a generator function makes a new
    generator object and runs none of its body. *)
Definition PagedQueryResult__iter__ (w : World) : Generator * World :=
  (Created, w).

(** [QueryBase.__iter__]: [iter(self.all())] *)
Definition QueryBase__iter__ (w : World) : Generator * World :=
  PagedQueryResult__iter__ (all w).

(** How a consumer that pulls until the end sees the traversal. *)
Inductive Ending :=
| Exhausted
| Failed (e : Exception).

(** [list(generator)]: pull until [StopIteration] or an exception; [fuel]
    bounds the number of pulls. *)
Fixpoint consume (fuel : nat) (g : Generator) (w : World)
  : option (list Resource * Ending * Generator * World) :=
  match fuel with
  | O => None
  | S fuel =>
      match next g w with
      | (Yield x, g, w) =>
          match consume fuel g w with
          | Some (xs, e, g, w) => Some (x :: xs, e, g, w)
          | None => None
          end
      | (StopIteration, g, w) => Some ([], Exhausted, g, w)
      | (Raise e, g, w) => Some ([], Failed e, g, w)
      end
  end.

(** The first [n] pulls, whatever they give. *)
Fixpoint pulls (n : nat) (g : Generator) (w : World)
  : list Next * Generator * World :=
  match n with
  | O => ([], g, w)
  | S n =>
      let '(x, g, w) := next g w in
      let '(xs, g, w) := pulls n g w in
      (x :: xs, g, w)
  end.

(** What the consumer ends up with: the items, the ending, the generator and
    the store. *)
Definition Run : Type := list Resource * Ending * Generator * World.

(** The items of the pages [rs], decoded against [t], in order. *)
Definition decoded (t : Table) (rs : list Response) : list Resource :=
  flat_map (fun r => map (fun item => create_resource_from_dict item t) (items_of r)) rs.

(** What is left to do once a pull has given [st]. *)
Definition after (k : Generator -> World -> option Run) (st : Step) : option Run :=
  match st with
  | (Yield x, g, w) =>
      match k g w with
      | Some (xs, e, g, w) => Some (x :: xs, e, g, w)
      | None => None
      end
  | (StopIteration, g, w) => Some ([], Exhausted, g, w)
  | (Raise e, g, w) => Some ([], Failed e, g, w)
  end.

(** [xs] were given before [run]. *)
Definition prepend (xs : list Resource) (run : Run) : Run :=
  let '(ys, e, g, w) := run in (xs ++ ys, e, g, w).

(** The world after the pages [rs] have been fetched with [p] to start. *)
Definition fetched (p : Params) (rs : list Response)
    (rest : list (Result Response)) (w : World) : World :=
  {| query := query w;
     cursor := tally (cursor w) rs;
     script := rest;
     calls := calls w ++ map (pair (_command (query w))) (thread p rs) |}.

(** [list(cursor)] with at most [fuel] pulls. *)
Definition traverse (fuel : nat) (w : World) : option Run :=
  let '(g, w) := PagedQueryResult__iter__ w in consume fuel g w.

(** The same step in a store whose operation is [q]. *)
Definition with_query (q : QueryBase) (st : Step) : Step :=
  let '(x, g, w) := st in (x, g, set_query w q).

(** [QueryResult.__iter__] (lines 23-26) run to its end. The body reads the
    operation's table and the raw items and touches nothing else, so the list
    of what it yields stands for the generator. *)
Definition QueryResult__iter__ (query : QueryBase) (_result : Response)
  : Result (list Resource) :=
  let table := table query in
  try items := raw_results _result in
  inr (map (fun item => create_resource_from_dict item table) items).

(** * Properties *)

(** ** The paged traversal *)

Lemma consume_S fuel g w :
  consume (S fuel) g w = after (consume fuel) (next g w).
Proof. reflexivity. Qed.

Lemma emit_fetch_from p r t pending w :
  emit (fetch_from (script w)) p r t pending w = emit fetch p r t pending w.
Proof. reflexivity. Qed.

(** The items of the open page come out one per pull. *)
Lemma consume_pending pending : forall n p r t w,
  after (consume (length pending + n)) (emit fetch p r t pending w) =
  prepend (map (fun item => create_resource_from_dict item t) pending)
    <$> after (consume n) (emit fetch p r t [] w).
Proof.
  induction pending as [|item pending IH]; intros n p r t w.
  - cbn [length Nat.add map].
    destruct (after _ _) as [[[[ys e] g] w']|]; reflexivity.
  - cbn [length Nat.add map]. cbn [emit after].
    rewrite consume_S. cbn [next]. rewrite IH.
    destruct (after _ _) as [[[[ys e] g] w']|]; reflexivity.
Qed.

(** One page: the call is logged, the counters move, the page is opened. *)
Lemma fetch_from_page r rest p w items :
  complete r -> Items r = Some items ->
  fetch_from (inr r :: rest) p w =
  emit (fetch_from rest) p r (table (query w)) items
    (set_cursor (called (_command (query w)) p rest w) (tally1 (cursor w) r)).
Proof.
  intros (_ & [n Hn] & [m Hm]) Hi. cbn [fetch_from].
  unfold QueryResult_count, QueryResult_scanned, raw_results.
  rewrite Hn, Hm, Hi. cbn. unfold tally1. rewrite Hn, Hm. reflexivity.
Qed.

Lemma run_pages init : forall last extra p w n,
  Forall complete (init ++ [last]) ->
  Forall has_key init ->
  LastEvaluatedKey last = None ->
  after (consume (length (flat_map items_of (init ++ [last])) + n))
    (fetch_from (map inr (init ++ [last]) ++ extra) p w) =
  Some (decoded (table (query w)) (init ++ [last]), Exhausted, Finished,
        fetched p (init ++ [last]) extra w).
Proof.
  induction init as [|r init IH]; intros last extra p w n Hc Hk Hl.
  - cbn [app map flat_map]. rewrite app_nil_r.
    apply Forall_cons in Hc as [Hc _].
    destruct (Hc) as ([items Hi] & _).
    rewrite (fetch_from_page _ _ _ _ items Hc Hi).
    set (w1 := set_cursor _ _).
    change (fetch_from extra) with (fetch_from (script w1)).
    rewrite emit_fetch_from.
    unfold items_of at 1. rewrite Hi. cbn [default].
    rewrite consume_pending.
    cbn [emit]. subst w1. cbn [cursor set_cursor last_page tally1].
    unfold last_evaluated_key. rewrite Hl. cbn [is_None after fmap option_fmap option_map prepend].
    unfold decoded. cbn [flat_map]. unfold items_of. rewrite Hi. cbn [default].
    reflexivity.
  - cbn [app map flat_map].
    apply Forall_cons in Hc as [Hc Hcs].
    apply Forall_cons in Hk as [[key Hkey] Hks].
    destruct (Hc) as ([items Hi] & _).
    rewrite (fetch_from_page _ _ _ _ items Hc Hi).
    set (w1 := set_cursor _ _).
    change (fetch_from (map inr (init ++ [last]) ++ extra))
      with (fetch_from (script w1)).
    rewrite emit_fetch_from.
    unfold items_of at 1. rewrite Hi. cbn [default].
    rewrite length_app, <- Nat.add_assoc.
    rewrite consume_pending.
    cbn [emit].
    replace (last_page (cursor w1)) with false
      by (subst w1; cbn; unfold last_evaluated_key; rewrite Hkey; reflexivity).
    unfold fetch.
    replace (script w1) with (map inr (init ++ [last]) ++ extra) by reflexivity.
    rewrite (IH last extra _ w1 n Hcs Hks Hl).
    cbn [fmap option_fmap option_map prepend].
    unfold decoded, fetched. cbn [flat_map thread map].
    unfold items_of at 2. rewrite Hi. cbn [default].
    subst w1. cbn. rewrite <- app_assoc. reflexivity.
Qed.

(** *** Bookkeeping *)

Lemma get_params_attributes (q : QueryBase) :
  table (_get_params q).2 = table q /\
  _command (_get_params q).2 = _command q /\
  _params (_get_params q).2 = (_get_params q).1.
Proof.
  unfold _get_params, Query_get_params, QueryBase_get_params.
  destruct (__class__ q); cbn; auto.
Qed.

Lemma tally_counters rs : forall c,
  pages (tally c rs) = (pages c + Z.of_nat (length rs))%Z /\
  count (tally c rs) = (count c + Zsum (map (fun r => default 0%Z (Count r)) rs))%Z /\
  scanned (tally c rs)
    = (scanned c + Zsum (map (fun r => default 0%Z (ScannedCount r)) rs))%Z.
Proof.
  induction rs as [|r rs IH]; intros c.
  - cbn. repeat split; lia.
  - unfold tally in *. cbn [fold_left].
    destruct (IH (tally1 c r)) as (Hp & Hc & Hs).
    rewrite Hp, Hc, Hs. cbn [tally1 pages count scanned map Zsum foldr length].
    unfold Zsum. repeat split; lia.
Qed.

Lemma length_thread rs : forall p, length (thread p rs) = length rs.
Proof. induction rs as [|r rs IH]; intros p; cbn; [|rewrite IH]; reflexivity. Qed.

Lemma thread_head r rs p : thread p (r :: rs) !! 0%nat = Some p.
Proof. reflexivity. Qed.

(** Call [k+1] carries the key of page [k] on top of the parameters of
    call [k]. *)
Lemma thread_next rs : forall p k r,
  rs !! k = Some r -> (S k < length rs)%nat ->
  exists pk, thread p rs !! k = Some pk /\
    thread p rs !! S k = Some (<["ExclusiveStartKey" := last_evaluated_key r]> pk).
Proof.
  induction rs as [|r0 rs IH]; intros p k r Hr Hlt; [discriminate|].
  destruct k as [|k].
  - injection Hr as ->. destruct rs as [|r1 rs]; [cbn in Hlt; lia|].
    exists p. split; reflexivity.
  - cbn in Hr, Hlt. apply (IH _ k r Hr). lia.
Qed.


Lemma length_flat_items rs :
  length (flat_map items_of rs) = sum_list (map (fun r => length (items_of r)) rs).
Proof.
  induction rs as [|r rs IH]; [reflexivity|].
  cbn. rewrite length_app, IH. reflexivity.
Qed.

(** A whole traversal from a new generator, on any cursor state. *)
Lemma run_from_created init last extra w fuel :
  Forall complete (init ++ [last]) ->
  Forall has_key init ->
  LastEvaluatedKey last = None ->
  script w = map inr (init ++ [last]) ++ extra ->
  (length (flat_map items_of (init ++ [last])) < fuel)%nat ->
  consume fuel Created w =
  Some (decoded (table (query w)) (init ++ [last]), Exhausted, Finished,
        fetched (_get_params (query w)).1 (init ++ [last]) extra
          (set_query w (_get_params (query w)).2)).
Proof.
  intros Hc Hk Hl Hs Hfuel.
  destruct fuel as [|fuel]; [lia|].
  replace fuel with (length (flat_map items_of (init ++ [last]))
                     + (fuel - length (flat_map items_of (init ++ [last]))))%nat
    by lia.
  rewrite consume_S. cbn [next].
  destruct (_get_params (query w)) as [p q] eqn:Hp.
  unfold fetch. cbn [script set_query]. rewrite Hs.
  rewrite (run_pages init last extra p (set_query w q) _ Hc Hk Hl).
  cbn [query set_query fst snd].
  pose proof (get_params_attributes (query w)) as (Ht & _).
  rewrite Hp in Ht. cbn in Ht. rewrite Ht. reflexivity.
Qed.

(** *** The operation during a traversal *)

(** Fetching reads [_command] and [table] of the operation and nothing
    else, and leaves the operation as it is. *)
Lemma fetch_from_frame responses : forall p w q,
  _command q = _command (query w) -> table q = table (query w) ->
  fetch_from responses p (set_query w q) = with_query q (fetch_from responses p w).
Proof.
  induction responses as [|response rest IH]; intros p w q Hc Ht.
  - cbn. rewrite Hc. reflexivity.
  - cbn [fetch_from]. cbn [query set_query]. rewrite Hc.
    destruct response as [e|results]; [reflexivity|].
    destruct (QueryResult_count results) as [e|n]; [reflexivity|].
    destruct (QueryResult_scanned results) as [e|m]; [reflexivity|].
    cbn. rewrite Ht.
    destruct (raw_results results) as [e|items]; [reflexivity|].
    destruct items as [|item items]; [|reflexivity].
    cbn.
    destruct (is_None (last_evaluated_key results)); [reflexivity|].
    match goal with
    | |- fetch_from rest ?p' ?w1 = with_query q (fetch_from rest ?p' ?w2) =>
        change w1 with (set_query w2 q)
    end.
    apply IH; assumption.
Qed.

Lemma next_frame g w q :
  g <> Created ->
  _command q = _command (query w) -> table q = table (query w) ->
  next g (set_query w q) = with_query q (next g w).
Proof.
  intros Hg Hc Ht. destruct g as [|p r t pending|]; [congruence| |reflexivity].
  cbn [next]. destruct pending as [|item pending]; [|reflexivity].
  cbn [emit cursor set_query].
  destruct (last_page (cursor w)); [reflexivity|].
  unfold fetch. cbn [script set_query].
  apply fetch_from_frame; assumption.
Qed.

Lemma with_query_same (st : Step) :
  with_query (query st.2) st = st.
Proof. destruct st as [[x g] [q c s l]]. reflexivity. Qed.

Lemma fetch_from_query responses p w :
  query (fetch_from responses p w).2 = query w.
Proof.
  pose proof (fetch_from_frame responses p w (query w) eq_refl eq_refl) as H.
  replace (set_query w (query w)) with w in H by (destruct w; reflexivity).
  rewrite H. destruct (fetch_from responses p w) as [[x g] w']. reflexivity.
Qed.

Lemma next_query g w :
  g <> Created -> query (next g w).2 = query w.
Proof.
  intros Hg.
  pose proof (next_frame g w (query w) Hg eq_refl eq_refl) as H.
  replace (set_query w (query w)) with w in H by (destruct w; reflexivity).
  rewrite H. destruct (next g w) as [[x g'] w']. reflexivity.
Qed.

(** What an execution leaves in the operation's own parameters. *)
Lemma get_params_writes (q : QueryBase) (k : string) :
  k <> "TableName" -> k <> "IndexName" -> k <> "KeyConditions" ->
  (_get_params q).1 !! k = _params q !! k.
Proof.
  intros H1 H2 H3.
  unfold _get_params, Query_get_params, QueryBase_get_params.
  destruct (__class__ q), (index q); cbn;
    rewrite ?lookup_insert_ne by congruence; reflexivity.
Qed.

Lemma get_params_TableName (q : QueryBase) :
  (_get_params q).1 !! "TableName"
  = Some (VStr (Table.table_name (table q) (session q))).
Proof.
  unfold _get_params, Query_get_params, QueryBase_get_params.
  destruct (__class__ q), (index q); cbn;
    rewrite ?lookup_insert_ne by discriminate; apply lookup_insert_eq.
Qed.

Lemma single_query w : query (single w).2 = (_get_params (query w)).2.
Proof.
  unfold single. destruct (_get_params (query w)) as [p q].
  unfold invoke. cbn. destruct (script w); reflexivity.
Qed.

Lemma first_pull_query w : query (next Created w).2 = (_get_params (query w)).2.
Proof.
  cbn [next]. destruct (_get_params (query w)) as [p q].
  unfold fetch. rewrite fetch_from_query. reflexivity.
Qed.

(** *** Termination *)

(** Every pull that yields uses up an item of the open page or of the
    responses to come. *)
Lemma fetch_from_yield responses : forall p w x g' w',
  fetch_from responses p w = (Yield x, g', w') ->
  pending_of g' + script_items (script w') < script_items responses.
Proof.
  induction responses as [|response rest IH]; intros p w x g' w' H;
    [discriminate H|].
  cbn [fetch_from] in H.
  destruct response as [e|results]; [discriminate H|].
  unfold QueryResult_count, QueryResult_scanned, raw_results, getitem in H.
  cbn [script_items]. unfold items_of.
  destruct (Count results); [|discriminate H].
  destruct (ScannedCount results); [|discriminate H].
  destruct (Items results) as [[|item items]|]; [| |discriminate H]; cbn in H.
  - destruct (is_None (last_evaluated_key results)); [discriminate H|].
    apply IH in H. cbn. lia.
  - injection H as _ <- <-. cbn. lia.
Qed.

Lemma next_yield g w x g' w' :
  next g w = (Yield x, g', w') ->
  pending_of g' + script_items (script w') < pending_of g + script_items (script w).
Proof.
  destruct g as [|p r t pending|]; cbn [next]; intros H; [| |discriminate H].
  - destruct (_get_params (query w)) as [p q]. unfold fetch in H.
    apply fetch_from_yield in H. cbn in *. lia.
  - destruct pending as [|item pending]; cbn in H.
    + destruct (last_page (cursor w)); [discriminate H|].
      unfold fetch in H. apply fetch_from_yield in H. cbn in *. lia.
    + injection H as _ <- <-. cbn. lia.
Qed.

(** [list(generator)] ends: with more fuel than there are items left, the
    consumer gets its list and the ending. *)
Lemma consume_terminates fuel : forall g w,
  pending_of g + script_items (script w) < fuel ->
  is_Some (consume fuel g w).
Proof.
  induction fuel as [|fuel IH]; intros g w Hlt; [lia|].
  rewrite consume_S.
  destruct (next g w) as [[[x| |e] g'] w'] eqn:Hn; cbn [after]; [|eexists; reflexivity..].
  apply next_yield in Hn.
  destruct (IH g' w') as [[[[xs e] g''] w''] ->]; [lia|]. eexists; reflexivity.
Qed.

(** *** The claims on the traversal *)

(** C1: on responses of which the N-th is the first without
    [LastEvaluatedKey], a traversal from a new cursor runs to its end with
    exactly N remote calls: the responses after the N-th are left untouched,
    a further pull on the finished generator gives [StopIteration] and
    changes nothing, and after every page that carries a key, whatever the
    number of its items and so also with none, the next call is issued. *)
Theorem traversal_stops_after_last_page
    (w : World) (init : list Response) (last : Response)
    (extra : list (Result Response)) (fuel : nat) :
  Forall complete (init ++ [last]) ->
  Forall has_key init ->
  LastEvaluatedKey last = None ->
  script w = map inr (init ++ [last]) ++ extra ->
  (length (flat_map items_of (init ++ [last])) < fuel)%nat ->
  exists items w' issued,
    traverse fuel (all w) = Some (items, Exhausted, Finished, w') /\
    calls w' = calls w ++ issued /\
    length issued = length (init ++ [last]) /\
    script w' = extra /\
    next Finished w' = (StopIteration, Finished, w') /\
    forall k r, init !! k = Some r -> is_Some (issued !! S k).
Proof.
  intros Hc Hk Hl Hs Hfuel.
  do 3 eexists. split.
  - unfold traverse, PagedQueryResult__iter__.
    apply (run_from_created init last extra (all w) fuel Hc Hk Hl Hs Hfuel).
  - cbn [fetched calls script all set_cursor set_query query].
    repeat split.
    + rewrite length_map, length_thread. reflexivity.
    + intros k r Hr. apply lookup_lt_is_Some.
      rewrite length_map, length_thread, length_app. cbn.
      apply lookup_lt_Some in Hr. lia.
Qed.

(** C2: in such a traversal, for every page k before the last, the call
    that follows it carries [ExclusiveStartKey] equal to that page's
    [LastEvaluatedKey], and every other parameter as in the call that
    fetched page k. *)
Theorem continuation_threading
    (w : World) (init : list Response) (last : Response)
    (extra : list (Result Response)) (fuel : nat)
    (k : nat) (r : Response) (key : list (string * Value)) :
  Forall complete (init ++ [last]) ->
  Forall has_key init ->
  LastEvaluatedKey last = None ->
  script w = map inr (init ++ [last]) ++ extra ->
  (length (flat_map items_of (init ++ [last])) < fuel)%nat ->
  init !! k = Some r ->
  LastEvaluatedKey r = Some key ->
  exists items w' c pk pk1,
    traverse fuel (all w) = Some (items, Exhausted, Finished, w') /\
    calls w' !! (length (calls w) + k)%nat = Some (c, pk) /\
    calls w' !! (length (calls w) + S k)%nat = Some (c, pk1) /\
    pk1 !! "ExclusiveStartKey" = Some (VDict key) /\
    forall name, name <> "ExclusiveStartKey" -> pk1 !! name = pk !! name.
Proof.
  intros Hc Hk Hl Hs Hfuel Hr Hkey.
  assert (Hr' : (init ++ [last]) !! k = Some r)
    by (apply lookup_app_l_Some; exact Hr).
  assert (Hlt : (S k < length (init ++ [last]))%nat).
  { rewrite length_app. cbn. apply lookup_lt_Some in Hr. lia. }
  destruct (thread_next (init ++ [last]) (_get_params (query w)).1 k r Hr' Hlt)
    as (pk & Hpk & Hpk1).
  exists (decoded (table (query w)) (init ++ [last])).
  eexists. exists (_command (_get_params (query w)).2), pk.
  eexists. split.
  - unfold traverse, PagedQueryResult__iter__.
    apply (run_from_created init last extra (all w) fuel Hc Hk Hl Hs Hfuel).
  - cbn [fetched calls script all set_cursor set_query query].
    rewrite !lookup_app_r by lia.
    replace (length (calls w) + k - length (calls w))%nat with k by lia.
    replace (length (calls w) + S k - length (calls w))%nat with (S k) by lia.
    rewrite !list_lookup_fmap, Hpk, Hpk1. cbn.
    repeat split.
    + rewrite lookup_insert_eq. unfold last_evaluated_key. rewrite Hkey.
      reflexivity.
    + intros name Hname. rewrite lookup_insert_ne by congruence. reflexivity.
Qed.


(** C4 (amended): iterating the same cursor object again after a traversal
    has run to its end starts a new traversal. With the responses
    [init2 ++ [last2]] next in line, it yields their items, issues one call
    per page, the first with a new snapshot of the operation's parameters,
    and adds to the counters of the first traversal. It is the finished
    generator that yields nothing further and issues no call. *)
Theorem iterating_again_starts_anew
    (w : World) (init1 init2 : list Response) (last1 last2 : Response)
    (extra : list (Result Response)) (fuel : nat) :
  Forall complete (init1 ++ [last1]) -> Forall has_key init1 ->
  LastEvaluatedKey last1 = None ->
  Forall complete (init2 ++ [last2]) -> Forall has_key init2 ->
  LastEvaluatedKey last2 = None ->
  script w = map inr (init1 ++ [last1]) ++ map inr (init2 ++ [last2]) ++ extra ->
  (length (flat_map items_of (init1 ++ [last1])) < fuel)%nat ->
  (length (flat_map items_of (init2 ++ [last2])) < fuel)%nat ->
  exists items1 w1 items2 w2 issued,
    traverse fuel (all w) = Some (items1, Exhausted, Finished, w1) /\
    traverse fuel w1 = Some (items2, Exhausted, Finished, w2) /\
    items2 = flat_map (fun r => map (fun item => create_resource_from_dict item (table (query w)))
                                    (items_of r)) (init2 ++ [last2]) /\
    calls w2 = calls w1 ++ issued /\
    length issued = length (init2 ++ [last2]) /\
    issued !! 0%nat = Some (_command (query w1), (_get_params (query w1)).1) /\
    pages (cursor w2)
      = Z.of_nat (length (init1 ++ [last1]) + length (init2 ++ [last2])) /\
    next Finished w1 = (StopIteration, Finished, w1).
Proof.
  intros Hc1 Hk1 Hl1 Hc2 Hk2 Hl2 Hs Hf1 Hf2.
  pose proof (run_from_created init1 last1 _ (all w) fuel Hc1 Hk1 Hl1 Hs Hf1)
    as H1.
  set (w1 := fetched _ _ _ _) in H1.
  assert (Hs1 : script w1 = map inr (init2 ++ [last2]) ++ extra) by reflexivity.
  pose proof (run_from_created init2 last2 _ w1 fuel Hc2 Hk2 Hl2 Hs1 Hf2) as H2.
  exists (decoded (table (query (all w))) (init1 ++ [last1])), w1.
  do 3 eexists. split; [exact H1|]. split; [exact H2|].
  pose proof (get_params_attributes (query w)) as (Ht & Hcmd & _).
  assert (Hq1 : query w1 = (_get_params (query w)).2) by reflexivity.
  cbn [fetched calls cursor set_query query].
  repeat split.
  - unfold decoded. rewrite Hq1, Ht. reflexivity.
  - rewrite length_map, length_thread. reflexivity.
  - destruct init2; cbn; rewrite ?Hq1;
      pose proof (get_params_attributes (_get_params (query w)).2) as (_ & -> & _);
      reflexivity.
  - destruct (tally_counters (init2 ++ [last2]) (cursor w1)) as (-> & _).
    subst w1. cbn [fetched cursor all set_cursor set_query].
    destruct (tally_counters (init1 ++ [last1]) PagedQueryResult__init__)
      as (-> & _).
    cbn. lia.
Qed.

(** What an execution writes under [IndexName] and [KeyConditions]. *)
Lemma get_params_IndexName (q : QueryBase) :
  (_get_params q).1 !! "IndexName"
  = match index q with
    | Some i => Some (VStr (Index.name i))
    | None => _params q !! "IndexName"
    end.
Proof.
  unfold _get_params, Query_get_params, QueryBase_get_params.
  destruct (__class__ q), (index q); cbn;
    rewrite ?lookup_insert_ne by discriminate;
    first [apply lookup_insert_eq | reflexivity].
Qed.

Lemma get_params_KeyConditions (q : QueryBase) :
  (_get_params q).1 !! "KeyConditions"
  = match __class__ q with
    | Query => Some (VDict (key_conditions (Table.key_fields (table q))
                              [hash_value q; _range_value q]))
    | Scan => _params q !! "KeyConditions"
    end.
Proof.
  unfold _get_params, Query_get_params, QueryBase_get_params.
  destruct (__class__ q), (index q); cbn;
    rewrite ?lookup_insert_ne by discriminate;
    first [apply lookup_insert_eq | reflexivity].
Qed.

(** C5 (amended): an execution (the single-page one, or the first pull of
    a traversal) leaves in the operation the parameters that
    [_get_params] assembled: [TableName] is written always, [IndexName]
    with the index object's name when the operation was built on one,
    [KeyConditions] with the derived block for a [Query], and no other key
    changes. A traversal that has started does not change the operation any
    more (the continuation key goes to the generator's own copy), and
    whatever is done to the operation's parameters or range value while it
    runs, its pulls give the same results and issue the same calls. *)
Theorem execution_and_the_operation
    (w : World) (g : Generator) (ps : Params) (rv : KeyValue) :
  g <> Created ->
  (query (single w).2 = (_get_params (query w)).2 /\
   query (next Created w).2 = (_get_params (query w)).2 /\
   _params (_get_params (query w)).2 !! "TableName"
     = Some (VStr (Table.table_name (table (query w)) (session (query w)))) /\
   _params (_get_params (query w)).2 !! "IndexName"
     = match index (query w) with
       | Some i => Some (VStr (Index.name i))
       | None => _params (query w) !! "IndexName"
       end /\
   _params (_get_params (query w)).2 !! "KeyConditions"
     = match __class__ (query w) with
       | Query =>
           Some (VDict (key_conditions (Table.key_fields (table (query w)))
                          [hash_value (query w); _range_value (query w)]))
       | Scan => _params (query w) !! "KeyConditions"
       end /\
   forall k, k <> "TableName" -> k <> "IndexName" -> k <> "KeyConditions" ->
     _params (_get_params (query w)).2 !! k = _params (query w) !! k) /\
  query (next g w).2 = query w /\
  next g (set_query w (set_range_value (set_params (query w) ps) rv))
  = with_query (set_range_value (set_params (query w) ps) rv) (next g w) /\
  (next g (set_query w (set_range_value (set_params (query w) ps) rv))).1
  = (next g w).1 /\
  calls (next g (set_query w (set_range_value (set_params (query w) ps) rv))).2
  = calls (next g w).2.
Proof.
  intros Hg.
  destruct (get_params_attributes (query w)) as (_ & _ & Hp).
  assert (Hframe :
    next g (set_query w (set_range_value (set_params (query w) ps) rv))
    = with_query (set_range_value (set_params (query w) ps) rv) (next g w))
    by (apply next_frame; [exact Hg|reflexivity|reflexivity]).
  split; [repeat split|split; [|split; [|split]]].
  - apply single_query.
  - apply first_pull_query.
  - rewrite Hp. apply get_params_TableName.
  - rewrite Hp. apply get_params_IndexName.
  - rewrite Hp. apply get_params_KeyConditions.
  - intros k H1 H2 H3. rewrite Hp. apply get_params_writes; assumption.
  - apply next_query, Hg.
  - exact Hframe.
  - rewrite Hframe. destruct (next g w) as [[x g'] w']. reflexivity.
  - rewrite Hframe. destruct (next g w) as [[x g'] w']. reflexivity.
Qed.

(** C10: iterating the operation is iterating the cursor that [all]
    returns: the same generator on the same store, hence the same results
    and the same remote calls pull after pull and to the end. *)
Theorem iterating_operation_is_all (w : World) (n fuel : nat) :
  QueryBase__iter__ w = PagedQueryResult__iter__ (all w) /\
  pulls n (QueryBase__iter__ w).1 (QueryBase__iter__ w).2
  = pulls n (PagedQueryResult__iter__ (all w)).1 (PagedQueryResult__iter__ (all w)).2 /\
  consume fuel (QueryBase__iter__ w).1 (QueryBase__iter__ w).2
  = traverse fuel (all w).
Proof. repeat split. Qed.

(** *** Further properties of the traversal *)

(** After the pages [init], all of them with a key, the generator stands at
    the head of its loop with the threaded parameters. *)
Lemma run_prefix init : forall tail p w n,
  Forall complete init ->
  Forall has_key init ->
  script w = map inr init ++ tail ->
  after (consume (length (flat_map items_of init) + n))
    (fetch_from (map inr init ++ tail) p w) =
  prepend (decoded (table (query w)) init)
    <$> after (consume n)
          (fetch_from tail (threaded p init) (fetched p init tail w)).
Proof.
  induction init as [|r init IH]; intros tail p w n Hc Hk Hs.
  - cbn [map app flat_map length Nat.add threaded fold_left decoded].
    replace (fetched p [] tail w) with w.
    + destruct (after _ _) as [[[[ys e] g] w']|]; reflexivity.
    + destruct w as [q c s l]. cbn in Hs. subst s.
      unfold fetched. cbn. rewrite app_nil_r. reflexivity.
  - cbn [app map flat_map].
    apply Forall_cons in Hc as [Hc Hcs].
    apply Forall_cons in Hk as [[key Hkey] Hks].
    destruct (Hc) as ([items Hi] & _).
    rewrite (fetch_from_page _ _ _ _ items Hc Hi).
    set (w1 := set_cursor _ _).
    change (fetch_from (map inr init ++ tail)) with (fetch_from (script w1)).
    rewrite emit_fetch_from.
    unfold items_of at 1. rewrite Hi. cbn [default].
    rewrite length_app, <- Nat.add_assoc.
    rewrite consume_pending.
    cbn [emit].
    replace (last_page (cursor w1)) with false
      by (subst w1; cbn; unfold last_evaluated_key; rewrite Hkey; reflexivity).
    unfold fetch.
    replace (script w1) with (map inr init ++ tail) by reflexivity.
    rewrite (IH tail _ w1 n Hcs Hks eq_refl).
    replace (fetched (<["ExclusiveStartKey":=last_evaluated_key r]> p) init tail w1)
      with (fetched p (r :: init) tail w)
      by (subst w1; unfold fetched; cbn; rewrite <- app_assoc; reflexivity).
    cbn [threaded fold_left].
    destruct (after _ _) as [[[[ys e] g] w']|]; cbn; [|reflexivity].
    unfold decoded. cbn [flat_map]. unfold items_of at 2. rewrite Hi.
    cbn [default]. subst w1. cbn. rewrite app_assoc. reflexivity.
Qed.

Lemma run_prefix_created init tail w n :
  Forall complete init ->
  Forall has_key init ->
  script w = map inr init ++ tail ->
  consume (S (length (flat_map items_of init) + n)) Created w =
  prepend (decoded (table (query w)) init)
    <$> after (consume n)
          (fetch_from tail (threaded (_get_params (query w)).1 init)
             (fetched (_get_params (query w)).1 init tail
                (set_query w (_get_params (query w)).2))).
Proof.
  intros Hc Hk Hs.
  rewrite consume_S. cbn [next].
  pose proof (get_params_attributes (query w)) as (Ht & _).
  destruct (_get_params (query w)) as [p q] eqn:Hp.
  unfold fetch. cbn [script set_query]. rewrite Hs.
  rewrite (run_prefix init tail p (set_query w q) n Hc Hk Hs).
  cbn [query set_query fst snd] in *. rewrite Ht. reflexivity.
Qed.

(** When the remote primitive raises on the call that follows the pages
    [init], the consumer has received the items of [init] and gets that
    exception; the failed call is in the log, the page counter stands at the
    number of pages received, the responses after the failure are untouched
    and the generator is finished. *)
Theorem backend_failure_aborts
    (w : World) (init : list Response) (e : Exception)
    (extra : list (Result Response)) (fuel : nat) :
  Forall complete init ->
  Forall has_key init ->
  script w = map inr init ++ inl e :: extra ->
  (length (flat_map items_of init) < fuel)%nat ->
  exists w',
    traverse fuel (all w)
      = Some (decoded (table (query w)) init, Failed e, Finished, w') /\
    length (calls w') = (length (calls w) + length init + 1)%nat /\
    pages (cursor w') = Z.of_nat (length init) /\
    count (cursor w') = Zsum (map (fun r => default 0%Z (Count r)) init) /\
    scanned (cursor w') = Zsum (map (fun r => default 0%Z (ScannedCount r)) init) /\
    script w' = extra.
Proof.
  intros Hc Hk Hs Hfuel.
  destruct fuel as [|fuel]; [lia|].
  replace fuel with (length (flat_map items_of init)
                     + (fuel - length (flat_map items_of init)))%nat by lia.
  eexists. split.
  - unfold traverse, PagedQueryResult__iter__.
    rewrite (run_prefix_created init (inl e :: extra) (all w) _ Hc Hk Hs).
    cbn [fetch_from after fmap option_fmap option_map prepend].
    rewrite app_nil_r. reflexivity.
  - cbn [called fetched calls cursor script all set_cursor set_query query].
    destruct (tally_counters init PagedQueryResult__init__) as (Hp & Hn & Hm).
    rewrite Hp, Hn, Hm. cbn [PagedQueryResult__init__ pages count scanned].
    rewrite !length_app, length_map, length_thread. cbn.
    repeat split; lia.
Qed.

(** A response without [Items] (as for a count-only selection) makes the
    traversal raise [KeyError] when the page is opened: by then the call is
    logged and the page, its [Count] and its [ScannedCount] are in the
    counters. *)
Theorem missing_items_raise_after_counting
    (w : World) (init : list Response) (bad : Response) (n m : Z)
    (extra : list (Result Response)) (fuel : nat) :
  Forall complete init ->
  Forall has_key init ->
  Items bad = None -> Count bad = Some n -> ScannedCount bad = Some m ->
  script w = map inr init ++ inr bad :: extra ->
  (length (flat_map items_of init) < fuel)%nat ->
  exists w',
    traverse fuel (all w)
      = Some (decoded (table (query w)) init, Failed (KeyError "Items"),
              Finished, w') /\
    length (calls w') = (length (calls w) + length init + 1)%nat /\
    pages (cursor w') = (Z.of_nat (length init) + 1)%Z /\
    count (cursor w')
      = (Zsum (map (fun r => default 0%Z (Count r)) init) + n)%Z /\
    scanned (cursor w')
      = (Zsum (map (fun r => default 0%Z (ScannedCount r)) init) + m)%Z.
Proof.
  intros Hc Hk Hi Hn Hm Hs Hfuel.
  destruct fuel as [|fuel]; [lia|].
  replace fuel with (length (flat_map items_of init)
                     + (fuel - length (flat_map items_of init)))%nat by lia.
  eexists. split.
  - unfold traverse, PagedQueryResult__iter__.
    rewrite (run_prefix_created init (inr bad :: extra) (all w) _ Hc Hk Hs).
    cbn [fetch_from].
    unfold QueryResult_count, QueryResult_scanned, raw_results.
    rewrite Hn, Hm, Hi.
    cbn [getitem after fmap option_fmap option_map prepend].
    rewrite app_nil_r. reflexivity.
  - cbn [called fetched calls cursor script all set_cursor set_query query
         pages count scanned].
    destruct (tally_counters init PagedQueryResult__init__) as (Hp & Hn' & Hm').
    rewrite Hp, Hn', Hm'. cbn [PagedQueryResult__init__ pages count scanned].
    rewrite !length_app, length_map, length_thread. cbn.
    repeat split; lia.
Qed.

(** A response without [Count] makes the traversal raise [KeyError] right
    after the call: the page is counted in [pages], and nothing of it is
    added to [count] or [scanned] nor yielded, whatever else it holds. *)
Theorem missing_count_raises
    (w : World) (init : list Response) (bad : Response)
    (extra : list (Result Response)) (fuel : nat) :
  Forall complete init ->
  Forall has_key init ->
  Count bad = None ->
  script w = map inr init ++ inr bad :: extra ->
  (length (flat_map items_of init) < fuel)%nat ->
  exists w',
    traverse fuel (all w)
      = Some (decoded (table (query w)) init, Failed (KeyError "Count"),
              Finished, w') /\
    pages (cursor w') = (Z.of_nat (length init) + 1)%Z /\
    count (cursor w') = Zsum (map (fun r => default 0%Z (Count r)) init) /\
    scanned (cursor w') = Zsum (map (fun r => default 0%Z (ScannedCount r)) init).
Proof.
  intros Hc Hk Hn Hs Hfuel.
  destruct fuel as [|fuel]; [lia|].
  replace fuel with (length (flat_map items_of init)
                     + (fuel - length (flat_map items_of init)))%nat by lia.
  eexists. split.
  - unfold traverse, PagedQueryResult__iter__.
    rewrite (run_prefix_created init (inr bad :: extra) (all w) _ Hc Hk Hs).
    cbn [fetch_from].
    unfold QueryResult_count. rewrite Hn.
    cbn [getitem after fmap option_fmap option_map prepend].
    rewrite app_nil_r. reflexivity.
  - cbn [called fetched calls cursor script all set_cursor set_query query
         pages count scanned].
    destruct (tally_counters init PagedQueryResult__init__) as (Hp & Hn' & Hm').
    rewrite Hp, Hn', Hm'. cbn [PagedQueryResult__init__ pages count scanned].
    repeat split; lia.
Qed.

(** While items of the open page remain, the pulls give them in order,
    decoded against the table read when the page was opened, and leave the
    store as it is: no call is issued before the page is used up. *)
Theorem open_page_pulls_issue_no_call (given : list Value) :
  forall (rest : list Value) (p : Params) (r : Response) (t : Table) (w : World),
  pulls (length given) (Suspended p r t (given ++ rest)) w =
  (map (fun item => Yield (create_resource_from_dict item t)) given,
   Suspended p r t rest, w).
Proof.
  induction given as [|item given IH]; intros rest p r t w; [reflexivity|].
  cbn [length pulls app next emit map]. rewrite IH. reflexivity.
Qed.

(** Apart from the continuation key, every entry of the threaded parameters
    is the one the traversal started with. *)
Lemma thread_keeps rs : forall p j pj k,
  thread p rs !! j = Some pj -> k <> "ExclusiveStartKey" -> pj !! k = p !! k.
Proof.
  induction rs as [|r rs IH]; intros p j pj k Hj Hk; [discriminate Hj|].
  destruct j as [|j]; cbn in Hj.
  - injection Hj as <-. reflexivity.
  - rewrite (IH _ j pj k Hj Hk). apply lookup_insert_ne. congruence.
Qed.

(** Every call of a traversal is made with the operation's command and
    carries, for every name other than [ExclusiveStartKey], what the
    snapshot taken at the start holds; in particular a parameter that the
    operation held under a name other than [TableName], [IndexName],
    [KeyConditions] and [ExclusiveStartKey] is sent unchanged with every
    page, and the first call is made with the snapshot itself. *)
Theorem parameters_sent_with_every_page
    (w : World) (init : list Response) (last : Response)
    (extra : list (Result Response)) (fuel : nat)
    (j : nat) (c : Command) (pj : Params) :
  Forall complete (init ++ [last]) ->
  Forall has_key init ->
  LastEvaluatedKey last = None ->
  script w = map inr (init ++ [last]) ++ extra ->
  (length (flat_map items_of (init ++ [last])) < fuel)%nat ->
  exists items w',
    traverse fuel (all w) = Some (items, Exhausted, Finished, w') /\
    calls w' !! length (calls w) = Some (_command (query w), (_get_params (query w)).1) /\
    (calls w' !! (length (calls w) + j)%nat = Some (c, pj) ->
     c = _command (query w) /\
     (forall k, k <> "ExclusiveStartKey" -> pj !! k = (_get_params (query w)).1 !! k) /\
     (forall k, k <> "ExclusiveStartKey" -> k <> "TableName" ->
                k <> "IndexName" -> k <> "KeyConditions" ->
                pj !! k = _params (query w) !! k)).
Proof.
  intros Hc Hk Hl Hs Hfuel.
  do 2 eexists. split.
  - unfold traverse, PagedQueryResult__iter__.
    apply (run_from_created init last extra (all w) fuel Hc Hk Hl Hs Hfuel).
  - cbn [fetched calls script all set_cursor set_query query].
    pose proof (get_params_attributes (query w)) as (_ & Hcmd & _).
    rewrite Hcmd. split.
    + rewrite lookup_app_r by lia. rewrite Nat.sub_diag.
      destruct init; reflexivity.
    + rewrite lookup_app_r by lia.
      replace (length (calls w) + j - length (calls w))%nat with j by lia.
      rewrite list_lookup_fmap.
      destruct (thread _ _ !! j) as [p'|] eqn:Hj; [|discriminate].
      cbn. intros [= <- <-].
      split; [reflexivity|]. split.
      * intros k Hk0. apply (thread_keeps _ _ _ _ _ Hj Hk0).
      * intros k Hk0 H1 H2 H3.
        rewrite (thread_keeps _ _ _ _ _ Hj Hk0).
        apply get_params_writes; assumption.
Qed.

(** *** Single-page execution *)

(** [single] makes exactly one call, with the assembled parameters, and
    hands back the response to it, whether that response carries a
    [LastEvaluatedKey] or not; the cursor is not involved. *)
Theorem single_issues_one_call
    (w : World) (response : Result Response) (rest : list (Result Response)) :
  script w = response :: rest ->
  (single w).1 = response /\
  calls (single w).2
    = calls w ++ [(_command (query w), (_get_params (query w)).1)] /\
  script (single w).2 = rest /\
  cursor (single w).2 = cursor w.
Proof.
  intros Hs. unfold single.
  pose proof (get_params_attributes (query w)) as (_ & Hcmd & _).
  destruct (_get_params (query w)) as [p q]. cbn [fst snd] in *.
  unfold invoke. cbn [script set_query]. rewrite Hs. cbn. rewrite Hcmd.
  repeat split.
Qed.

(** On a response without [LastEvaluatedKey], a traversal and a single-page
    execution do the same: one call with the same parameters, the same
    operation and the same responses left, and the traversal yields what
    iterating the single page yields. *)
Theorem one_page_traversal_is_single
    (w : World) (r : Response) (extra : list (Result Response)) (fuel : nat) :
  complete r ->
  LastEvaluatedKey r = None ->
  script w = inr r :: extra ->
  (length (items_of r) < fuel)%nat ->
  exists items w1,
    traverse fuel (all w) = Some (items, Exhausted, Finished, w1) /\
    (single w).1 = inr r /\
    QueryResult__iter__ (query (single w).2) r = inr items /\
    calls w1 = calls (single w).2 /\
    query w1 = query (single w).2 /\
    script w1 = script (single w).2.
Proof.
  intros Hc Hl Hs Hfuel.
  assert (Hcs : Forall complete ([] ++ [r])) by (apply Forall_cons; split; [exact Hc|apply Forall_nil_2]).
  assert (Hf : (length (flat_map items_of ([] ++ [r])) < fuel)%nat)
    by (cbn; rewrite app_nil_r; exact Hfuel).
  destruct (single_issues_one_call w (inr r) extra Hs) as (H1 & H2 & H3 & _).
  do 2 eexists. split.
  - unfold traverse, PagedQueryResult__iter__.
    apply (run_from_created [] r extra (all w) fuel Hcs (Forall_nil_2 _) Hl Hs Hf).
  - rewrite H1, H2, H3, single_query.
    pose proof (get_params_attributes (query w)) as (Ht & Hcmd & _).
    cbn [fetched calls script all set_cursor set_query query app thread map].
    rewrite Hcmd. repeat split.
    unfold QueryResult__iter__, decoded, raw_results. cbn [app flat_map].
    unfold items_of. destruct Hc as ([items Hi] & _). rewrite Hi, Ht. cbn.
    rewrite app_nil_r. reflexivity.
Qed.

End Traversal.

(** ** The builders *)

Example a_scan_constructed : new Scan [PSession dev; PTable hash_table] = inr a_scan.
Proof. reflexivity. Qed.

Example a_query_constructed :
  new Query [PKey (Provided (VStr "a")); PSession dev; PTable hash_table] = inr a_query.
Proof. reflexivity. Qed.

(** ** Constructors and [copy] *)

Lemma new_Scan_table s t :
  new Scan [PSession s; PTable t] =
  inr {| __class__ := Scan; session := s; table := t; index := None;
         _expression_attributes := ∅; _params := ∅; _command := client_scan;
         hash_value := NOT_PROVIDED; _range_value := NOT_PROVIDED |}.
Proof. reflexivity. Qed.

Lemma new_Scan_index s i :
  new Scan [PSession s; PIndex i] =
  inr {| __class__ := Scan; session := s; table := Index.table i;
         index := Some i;
         _expression_attributes := ∅; _params := ∅; _command := client_scan;
         hash_value := NOT_PROVIDED; _range_value := NOT_PROVIDED |}.
Proof. reflexivity. Qed.

(** On a [Scan], [copy] gives a [Scan] on the same session and table with
    equal parameters; the index object, if any, is not handed over. *)
Lemma copy_Scan (self : QueryBase) :
  __class__ self = Scan ->
  exists q, copy self = inr q /\
    __class__ q = Scan /\ session q = session self /\ table q = table self /\
    _params q = _params self /\ index q = None.
Proof.
  intros Hc. unfold copy. rewrite Hc. cbn. eexists. split; [reflexivity|].
  cbn. auto.
Qed.

(** Writes to the copy's parameters do not reach the original's. *)
Lemma copy_independent (self q : QueryBase) (kwargs : Params) :
  copy self = inr q ->
  _params self = _params q /\
  forall k, kwargs !! k = None -> _params (params kwargs q) !! k = _params self !! k.
Proof.
  unfold copy. destruct (new _ _) as [e|q0]; cbn; [discriminate|].
  intros [= <-]. cbn. split; [reflexivity|].
  intros k Hk. rewrite lookup_union_r; auto.
Qed.

(** C6 (what the code does): [copy] on a [Query] raises [TypeError]. The two
    positional arguments [(self.session, self.table)] are bound by
    [Query.__init__] to [hash_value] and to [args = (table,)], and
    [QueryBase.__init__] then lacks [table_of_index]. *)
Theorem copy_Query_raises (self : QueryBase) :
  __class__ self = Query ->
  copy self =
  inl (TypeError "__init__() missing 1 required positional argument: 'table_of_index'").
Proof.
  intros Hc. unfold copy. rewrite Hc. reflexivity.
Qed.

Lemma copy_Query_raises_witness :
  __class__ a_query = Query /\
  copy a_query =
  inl (TypeError "__init__() missing 1 required positional argument: 'table_of_index'").
Proof.
  split; [reflexivity | apply (copy_Query_raises a_query); reflexivity].
Defined.

(** A [Scan] built on an index object and copied before its first execution
    sends no [IndexName]. *)
Example copy_drops_index :
  exists q q',
    new Scan [PSession dev; PIndex by_ts] = inr q /\ copy q = inr q' /\
    fst (_get_params q) !! "IndexName" = Some (VStr "by_ts") /\
    fst (_get_params q') !! "IndexName" = None.
Proof. do 2 eexists. repeat split. Qed.

(** ** The two ways to name an index *)

(** Built on an index object, an operation sends the index's name and the
    name of the index's table. *)
Lemma index_object_params cls args (q : QueryBase) (i : Index) :
  new cls args = inr q -> index q = Some i ->
  table q = Index.table i /\
  fst (_get_params q) !! "IndexName" = Some (VStr (Index.name i)) /\
  fst (_get_params q) !! "TableName" =
    Some (VStr (Table.table_name (Index.table i) (session q))).
Proof.
  intros Hnew Hi.
  assert (Ht : table q = Index.table i).
  { destruct cls; cbn in Hnew.
    - destruct args as [|[] [|[] [|]]]; cbn in Hnew; try discriminate;
        injection Hnew as <-; cbn in *; congruence.
    - destruct args as [|h [|[] [|[] [|]]]]; cbn in Hnew; try discriminate;
        destruct h; cbn in Hnew; try discriminate;
        injection Hnew as <-; cbn in *; congruence. }
  split; [exact Ht|].
  unfold _get_params, Query_get_params, QueryBase_get_params.
  destruct (__class__ q); cbn; rewrite Hi, Ht; cbn.
  - split; [apply lookup_insert_eq|].
    rewrite lookup_insert_ne by discriminate. apply lookup_insert_eq.
  - split.
    + rewrite lookup_insert_ne by discriminate. apply lookup_insert_eq.
    + rewrite !lookup_insert_ne by discriminate. apply lookup_insert_eq.
Qed.

(** The function body behind the name [index], had it been reachable. *)
Lemma QueryBase_index_sets name (self : QueryBase) :
  _params (QueryBase_index name self) !! "IndexName" = Some name.
Proof. apply lookup_insert_eq. Qed.

(** On execution the index object's name overwrites whatever [IndexName] the
    parameters held. *)
Lemma index_object_overrides name (self : QueryBase) (i : Index) :
  index self = Some i ->
  fst (_get_params (QueryBase_index name self)) !! "IndexName"
  = Some (VStr (Index.name i)).
Proof.
  intros Hi.
  unfold _get_params, Query_get_params, QueryBase_get_params.
  destruct (__class__ _); cbn; rewrite Hi.
  - apply lookup_insert_eq.
  - rewrite lookup_insert_ne by discriminate. apply lookup_insert_eq.
Qed.

(** C7 (what the code does): on an operation built on a table, [self.index]
    is the instance attribute set to [None] by [__init__]; it hides the
    method of that name, and [op.index(name)] raises [TypeError]. *)
Theorem index_method_shadowed (name : Value) (self : QueryBase) :
  index self = None ->
  call_method "index" name self =
  inl (TypeError "'NoneType' object is not callable").
Proof.
  intros Hi. unfold call_method, getattr, instance_attribute. cbn.
  rewrite Hi. reflexivity.
Qed.

Lemma index_method_shadowed_witness :
  index a_scan = None /\
  call_method "index" (VStr "by_ts") a_scan =
  inl (TypeError "'NoneType' object is not callable").
Proof.
  split; [reflexivity | apply (index_method_shadowed _ a_scan); reflexivity].
Defined.

(** A method whose name no instance attribute takes is reached. *)
Example limit_method_reached :
  call_method "limit" (VInt 10) a_scan = inr (limit (VInt 10) a_scan).
Proof. reflexivity. Qed.

Example range_method_reached :
  call_method "range" (VInt 5) a_query = inr a_ranged_query /\
  call_method "range" (VInt 5) a_scan = inl (AttributeError "range").
Proof. split; reflexivity. Qed.

(** ** Key conditions of a [Query] *)

Lemma Query_get_params_KeyConditions (q : QueryBase) :
  __class__ q = Query ->
  fst (_get_params q) !! "KeyConditions" =
  Some (VDict (key_conditions (Table.key_fields (table q))
                 [hash_value q; _range_value q])).
Proof.
  intros Hc. unfold _get_params. rewrite Hc.
  unfold Query_get_params, QueryBase_get_params. cbn.
  apply lookup_insert_eq.
Qed.

(** C8 (as stated, refuted): on a table that declares a hash key only, a
    query given both a hash and a range value derives one entry, not two:
    [zip] stops at the shorter sequence. *)
Lemma key_conditions_two_entries_counterexample :
  __class__ a_ranged_query = Query /\
  hash_value a_ranged_query = Provided (VStr "a") /\
  _range_value a_ranged_query = Provided (VInt 5) /\
  fst (_get_params a_ranged_query) !! "KeyConditions" =
    Some (VDict [key_condition id_field (VStr "a")]) /\
  ~ exists kc, fst (_get_params a_ranged_query) !! "KeyConditions" = Some (VDict kc)
               /\ length kc = 2%nat.
Proof.
  repeat split.
  intros (kc & Hkc & Hlen).
  rewrite Query_get_params_KeyConditions in Hkc by reflexivity.
  injection Hkc as <-. discriminate Hlen.
Qed.

(** C8 (amended): for a [Query] whose hash value was supplied, on a table
    whose key fields start with the hash field and bear distinct names, the
    derived [KeyConditions] holds the hash field's entry alone when no range
    value was supplied or the table declares no range field, and the hash
    field's entry followed by the range field's when a range value was
    supplied and the table declares a range field; each entry maps the
    field's name to an [AttributeValueList] with the one value encoded by that
    field's [prepare_dynamo]. *)
Theorem key_conditions_derivation (q : QueryBase) (h : Value)
    (hash_field : Field) (more : list Field) :
  __class__ q = Query ->
  hash_value q = Provided h ->
  Table.key_fields (table q) = hash_field :: more ->
  NoDup (map Field.name (hash_field :: more)) ->
  fst (_get_params q) !! "KeyConditions" =
  Some (VDict match _range_value q, more with
              | Provided r, range_field :: _ =>
                  [key_condition hash_field h; key_condition range_field r]
              | _, _ => [key_condition hash_field h]
              end).
Proof.
  intros Hc Hh Hk Hnd.
  rewrite Query_get_params_KeyConditions by assumption.
  rewrite Hk, Hh. do 2 f_equal.
  destruct (_range_value q) as [|r];
    destruct more as [|range_field [|third more']]; try reflexivity.
  all: cbn; unfold key_condition.
  all: destruct (String.eqb_spec (Field.name hash_field) (Field.name range_field))
    as [Heq|Hne]; [|reflexivity].
  all: exfalso; apply NoDup_cons in Hnd as [Hnotin _]; apply Hnotin.
  all: cbn; rewrite Heq; left.
Qed.

Lemma key_conditions_derivation_witness :
  (__class__ (range (Provided (VInt 5)) an_event_query) = Query /\
   hash_value (range (Provided (VInt 5)) an_event_query) = Provided (VStr "a") /\
   Table.key_fields (table (range (Provided (VInt 5)) an_event_query))
     = id_field :: [ts_field] /\
   NoDup (map Field.name (id_field :: [ts_field]))) /\
  fst (_get_params (range (Provided (VInt 5)) an_event_query)) !! "KeyConditions" =
  Some (VDict [key_condition id_field (VStr "a"); key_condition ts_field (VInt 5)]).
Proof.
  assert (Hnd : NoDup (map Field.name (id_field :: [ts_field]))).
  { cbn. apply NoDup_cons. split.
    - intros Hin. apply list_elem_of_singleton in Hin. discriminate Hin.
    - apply NoDup_singleton. }
  split; [repeat split; exact Hnd|].
  exact (key_conditions_derivation (range (Provided (VInt 5)) an_event_query)
           (VStr "a") id_field [ts_field] eq_refl eq_refl eq_refl Hnd).
Defined.

(** ** Enumerated modes *)

Lemma value_in_spec (value : Value) (choices : list string) :
  value_in value choices = true <-> value ∈ map VStr choices.
Proof.
  split.
  - destruct value as [|s| | |]; cbn; try discriminate.
    intros H. apply existsb_exists in H as (c & Hin & Heq).
    apply String.eqb_eq in Heq. subst c.
    apply list_elem_of_In, in_map, Hin.
  - intros H. apply list_elem_of_In, in_map_iff in H as (c & <- & Hin).
    cbn. apply existsb_exists. exists c. split; [exact Hin|].
    apply String.eqb_refl.
Qed.

Lemma value_in_false (value : Value) (choices : list string) :
  value ∉ map VStr choices -> value_in value choices = false.
Proof.
  intros H. destruct (value_in value choices) eqn:E; [|reflexivity].
  exfalso. apply H, value_in_spec, E.
Qed.

(** C9: [select] with one of the four modes, or [consumed_capacity] with one
    of the three, succeeds and records the parameter: the operation returned
    holds the value under [Select] (under [ReturnConsumedCapacity]), every
    other parameter as before, an execution sends it, and the operation of
    the store is the one that received it. With any other value the call
    raises (the [assert] of lines 190 and 210) and the operation, the
    responses to come and the log of remote calls are as before. Neither
    issues a remote call. *)
Theorem enumerated_modes_validated (value : Value) (q : QueryBase) (w : World) :
  (value ∈ [VStr "ALL_ATTRIBUTES"; VStr "ALL_PROJECTED_ATTRIBUTES";
            VStr "COUNT"; VStr "SPECIFIC_ATTRIBUTES"] ->
   select value q = inr (set_params q (<["Select" := value]> (_params q))) /\
   (exists q', select value q = inr q' /\
      _params q' !! "Select" = Some value /\
      (forall k, k <> "Select" -> _params q' !! k = _params q !! k) /\
      (_get_params q').1 !! "Select" = Some value) /\
   (configure (select value) w).1 = None /\
   _params (query (configure (select value) w).2) !! "Select" = Some value /\
   calls (snd (configure (select value) w)) = calls w /\
   script (snd (configure (select value) w)) = script w) /\
  (value ∉ [VStr "ALL_ATTRIBUTES"; VStr "ALL_PROJECTED_ATTRIBUTES";
            VStr "COUNT"; VStr "SPECIFIC_ATTRIBUTES"] ->
   select value q = inl AssertionError /\
   configure (select value) w = (Some AssertionError, w)) /\
  (value ∈ [VStr "INDEXES"; VStr "TOTAL"; VStr "NONE"] ->
   consumed_capacity value q =
     inr (set_params q (<["ReturnConsumedCapacity" := value]> (_params q))) /\
   (exists q', consumed_capacity value q = inr q' /\
      _params q' !! "ReturnConsumedCapacity" = Some value /\
      (forall k, k <> "ReturnConsumedCapacity" -> _params q' !! k = _params q !! k) /\
      (_get_params q').1 !! "ReturnConsumedCapacity" = Some value) /\
   (configure (consumed_capacity value) w).1 = None /\
   _params (query (configure (consumed_capacity value) w).2)
     !! "ReturnConsumedCapacity" = Some value /\
   calls (snd (configure (consumed_capacity value) w)) = calls w /\
   script (snd (configure (consumed_capacity value) w)) = script w) /\
  (value ∉ [VStr "INDEXES"; VStr "TOTAL"; VStr "NONE"] ->
   consumed_capacity value q = inl AssertionError /\
   configure (consumed_capacity value) w = (Some AssertionError, w)).
Proof.
  split; [|split; [|split]].
  - intros H. apply (value_in_spec value select_choices) in H.
    unfold configure, select. rewrite H. cbn.
    split; [reflexivity|]. split; [|repeat split; apply lookup_insert_eq].
    eexists. split; [reflexivity|]. cbn. split; [apply lookup_insert_eq|]. split.
    + intros k Hk. apply lookup_insert_ne. congruence.
    + rewrite get_params_writes by discriminate. apply lookup_insert_eq.
  - intros H. unfold configure, select.
    rewrite (value_in_false value select_choices H). split; reflexivity.
  - intros H. apply (value_in_spec value consumed_capacity_choices) in H.
    unfold configure, consumed_capacity. rewrite H. cbn.
    split; [reflexivity|]. split; [|repeat split; apply lookup_insert_eq].
    eexists. split; [reflexivity|]. cbn. split; [apply lookup_insert_eq|]. split.
    + intros k Hk. apply lookup_insert_ne. congruence.
    + rewrite get_params_writes by discriminate. apply lookup_insert_eq.
  - intros H. unfold configure, consumed_capacity.
    rewrite (value_in_false value consumed_capacity_choices H). split; reflexivity.
Qed.

(** ** Further properties of the builders *)

Ltac same_map :=
  apply map_eq; intros ?;
  rewrite ?lookup_insert; repeat case_decide; subst;
  try reflexivity; try congruence.

(** Executing again assembles the same parameters and leaves the operation
    as the first execution left it: nothing accumulates. *)
Theorem get_params_idempotent (q : QueryBase) :
  _get_params (_get_params q).2 = _get_params q.
Proof.
  unfold _get_params, Query_get_params, QueryBase_get_params.
  destruct q as [cls s t i ea ps cmd h r].
  destruct cls, i as [i|]; cbn; unfold set_params; cbn;
    (f_equal; [same_map | f_equal; same_map]).
Qed.

(** What was injected with [params] and what an execution sends: the
    resolved table name always replaces an injected [TableName]; the index
    object's name replaces an injected [IndexName], which is sent as
    injected when the operation was built on a table; a [Query] replaces
    injected [KeyConditions] by the derived block; under every other name
    the injected value is sent, or the one held before when none was
    injected. *)
Theorem injected_parameters_at_execution (kwargs : Params) (q : QueryBase) :
  (_get_params (params kwargs q)).1 !! "TableName"
    = Some (VStr (Table.table_name (table q) (session q))) /\
  (_get_params (params kwargs q)).1 !! "IndexName"
    = match index q with
      | Some i => Some (VStr (Index.name i))
      | None => (kwargs ∪ _params q) !! "IndexName"
      end /\
  (_get_params (params kwargs q)).1 !! "KeyConditions"
    = match __class__ q with
      | Query => Some (VDict (key_conditions (Table.key_fields (table q))
                                [hash_value q; _range_value q]))
      | Scan => (kwargs ∪ _params q) !! "KeyConditions"
      end /\
  forall k, k <> "TableName" -> k <> "IndexName" -> k <> "KeyConditions" ->
    (_get_params (params kwargs q)).1 !! k
    = match kwargs !! k with
      | Some v => Some v
      | None => _params q !! k
      end.
Proof.
  unfold _get_params, Query_get_params, QueryBase_get_params, params.
  destruct q as [cls s t i ea ps cmd h r].
  repeat split; destruct cls, i as [i|]; cbn;
    rewrite ?lookup_insert; repeat case_decide; try congruence; try reflexivity.
  all: intros; rewrite ?lookup_insert_ne by congruence;
    rewrite lookup_union; destruct (kwargs !! k), (ps !! k); reflexivity.
Qed.

(** *** The derived block as a dict *)

Lemma dict_setitem_keys (d : list (string * Value)) (k : string) (v : Value) :
  map fst (dict_setitem d k v)
  = if decide (k ∈ map fst d) then map fst d else map fst d ++ [k].
Proof.
  induction d as [|[k' v'] d IH]; cbn.
  - destruct (decide (k ∈ [])) as [Hin|_]; [|reflexivity].
    apply elem_of_nil in Hin. destruct Hin.
  - destruct (String.eqb_spec k' k) as [->|Hne]; cbn.
    + destruct (decide (k ∈ k :: map fst d)) as [_|Hn]; [reflexivity|].
      exfalso. apply Hn. left.
    + rewrite IH.
      destruct (decide (k ∈ map fst d)) as [Hin|Hn];
        destruct (decide (k ∈ k' :: map fst d)) as [Hin'|Hn']; try reflexivity.
      * exfalso. apply Hn'. right. exact Hin.
      * exfalso. apply elem_of_cons in Hin' as [->|Hin']; [congruence|].
        apply Hn, Hin'.
Qed.

Lemma key_conditions_fold (l : list (Field * KeyValue)) :
  forall d : list (string * Value),
  NoDup (map fst d) ->
  let d' := fold_left
              (fun d fv =>
                 match snd fv with
                 | NOT_PROVIDED => d
                 | Provided v =>
                     dict_setitem d (Field.name (fst fv))
                       (VDict [("AttributeValueList",
                                VList [Field.prepare_dynamo (fst fv) v])])
                 end) l d in
  NoDup (map fst d') /\
  (length d' <= length d + length l)%nat /\
  forall k, k ∈ map fst d' -> k ∈ map fst d \/ k ∈ map (fun fv => Field.name (fst fv)) l.
Proof.
  induction l as [|[f v] l IH]; intros d Hnd; cbn.
  - repeat split; [exact Hnd|lia|]. intros k Hk. left. exact Hk.
  - destruct v as [|v]; cbn.
    + destruct (IH d Hnd) as (H1 & H2 & H3).
      repeat split; [exact H1|lia|].
      intros k Hk. destruct (H3 k Hk) as [H|H]; [left; exact H|].
      right. right. exact H.
    + set (d1 := dict_setitem d (Field.name f) _).
      assert (Hk1 : map fst d1 = if decide (Field.name f ∈ map fst d)
                                 then map fst d else map fst d ++ [Field.name f])
        by apply dict_setitem_keys.
      assert (Hnd1 : NoDup (map fst d1)).
      { rewrite Hk1. destruct (decide _) as [Hin|Hn]; [exact Hnd|].
        apply NoDup_app. split; [exact Hnd|]. split.
        - intros x Hx Hx'. apply list_elem_of_singleton in Hx'. subst x.
          exact (Hn Hx).
        - apply NoDup_singleton. }
      assert (Hlen : (length d1 <= S (length d))%nat).
      { rewrite <- (length_map fst d1), Hk1.
        destruct (decide _); rewrite ?length_app, ?length_map; cbn; lia. }
      destruct (IH d1 Hnd1) as (H1 & H2 & H3).
      repeat split; [exact H1|lia|].
      intros k Hk. destruct (H3 k Hk) as [H|H]; [|right; right; exact H].
      rewrite Hk1 in H. destruct (decide _) as [Hin|Hn]; [left; exact H|].
      apply elem_of_app in H as [H|H]; [left; exact H|].
      apply list_elem_of_singleton in H. subst k. right. left.
Qed.

(** The [KeyConditions] a [Query] sends is a dict: no name occurs twice. It
    has at most two entries and no more than the table has key fields, every
    name in it is the name of a key field of the table, and it is empty when
    neither key value was provided. *)
Theorem key_conditions_shape (q : QueryBase) :
  __class__ q = Query ->
  exists kc,
    (_get_params q).1 !! "KeyConditions" = Some (VDict kc) /\
    NoDup (map fst kc) /\
    (length kc <= 2)%nat /\
    (length kc <= length (Table.key_fields (table q)))%nat /\
    (forall k, k ∈ map fst kc -> k ∈ map Field.name (Table.key_fields (table q))) /\
    (hash_value q = NOT_PROVIDED -> _range_value q = NOT_PROVIDED -> kc = []).
Proof.
  intros Hc. eexists. split; [apply Query_get_params_KeyConditions, Hc|].
  unfold key_conditions.
  set (l := zip (Table.key_fields (table q)) [hash_value q; _range_value q]).
  assert (Hlen : length l = (length (Table.key_fields (table q)) `min` 2)%nat)
    by apply length_zip_with.
  destruct (key_conditions_fold l [] (NoDup_nil_2)) as (H1 & H2 & H3).
  cbn [length Nat.add] in H2.
  repeat split; [exact H1|lia|lia| |].
  - intros k Hk. destruct (H3 k Hk) as [H|H].
    + apply elem_of_nil in H. destruct H.
    + apply list_elem_of_fmap in H as ([f v] & -> & Hin).
      apply elem_of_zip_l in Hin. cbn. apply list_elem_of_fmap. exists f. auto.
  - intros Hh Hr. subst l. rewrite Hh, Hr.
    destruct (Table.key_fields (table q)) as [|f1 [|f2 [|f3 fs]]]; reflexivity.
Qed.

(** *** Copies of a [Scan] built on an index *)

(** The copy of a [Scan] built on an index object has no index object. Made
    before the original was ever executed, it sends the [IndexName] the
    original's parameters held, if any; made after an execution of the
    original, it sends the index's name, which that execution left in the
    parameters. *)
Theorem copy_of_index_scan (q : QueryBase) (i : Index) :
  __class__ q = Scan ->
  index q = Some i ->
  (exists q1, copy q = inr q1 /\ index q1 = None /\
     (_get_params q1).1 !! "IndexName" = _params q !! "IndexName") /\
  (exists q2, copy (_get_params q).2 = inr q2 /\ index q2 = None /\
     (_get_params q2).1 !! "IndexName" = Some (VStr (Index.name i))).
Proof.
  intros Hc Hi. destruct q as [cls s t i0 ea ps cmd h r]. cbn in Hc, Hi.
  subst cls i0. split; eexists; (split; [reflexivity|]); cbn; split;
    try reflexivity.
  - rewrite lookup_insert_ne by discriminate. reflexivity.
  - rewrite lookup_insert_ne by discriminate. apply lookup_insert_eq.
Qed.

(** *** Arity of the constructors *)

(** [Scan] takes exactly two positional arguments and [Query] exactly three;
    any other number raises [TypeError]. A constructed operation starts with
    no parameter and with the remote primitive of its class, a [Query] with
    no range value. *)
Theorem constructors_check_arity (args : list PyObj) :
  (length args <> 2%nat -> exists msg, new Scan args = inl (TypeError msg)) /\
  (length args <> 3%nat -> exists msg, new Query args = inl (TypeError msg)) /\
  (forall q, new Scan args = inr q ->
     length args = 2%nat /\ __class__ q = Scan /\ _params q = ∅ /\
     _command q = client_scan) /\
  (forall q, new Query args = inr q ->
     length args = 3%nat /\ __class__ q = Query /\ _params q = ∅ /\
     _command q = client_query /\ _range_value q = NOT_PROVIDED).
Proof.
  destruct args as [|a [|b [|c [|d args]]]];
    try destruct a; try destruct b; try destruct c; cbn;
    repeat split; intros; try lia; try discriminate;
    try (eexists; reflexivity);
    try (match goal with
         | H : inr _ = inr _ |- _ => injection H as <-
         end; reflexivity).
Qed.

(** *** Order of the settings *)

(** Setting the limit twice keeps the last value, and settings under
    different names can be made in either order: the operation, or the
    exception, is the same. *)
Theorem settings_compose (v1 v2 s c : Value) (q : QueryBase) :
  limit v2 (limit v1 q) = limit v2 q /\
  (try q' := select s q in inr (limit v1 q')) = select s (limit v1 q) /\
  (try q' := select s q in consumed_capacity c q')
  = (try q' := consumed_capacity c q in select s q').
Proof.
  unfold limit, select, consumed_capacity. repeat split.
  - unfold set_params. cbn. f_equal. apply insert_insert_eq.
  - destruct (value_in s select_choices); cbn; [|reflexivity].
    unfold set_params. cbn. do 2 f_equal. apply insert_insert_ne. discriminate.
  - destruct (value_in s select_choices), (value_in c consumed_capacity_choices);
      cbn; try reflexivity.
    unfold set_params. cbn. do 2 f_equal. apply insert_insert_ne. discriminate.
Qed.

(** ** The traversal on a concrete store *)

(** [world0]: the operation is [Scan(dev, hash_table)] and the remote
    primitive answers [page_a], [page_empty], [page_z], then [page_y]. *)

Ltac pages_hold :=
  repeat first
    [ apply Forall_nil_2
    | apply Forall_cons; split
    | split
    | eexists; reflexivity ].

Lemma traversal_stops_after_last_page_witness :
  (Forall complete ([page_a; page_empty] ++ [page_z]) /\
   Forall has_key [page_a; page_empty] /\
   LastEvaluatedKey page_z = None /\
   script world0 = map inr ([page_a; page_empty] ++ [page_z]) ++ [inr page_y] /\
   (length (flat_map items_of ([page_a; page_empty] ++ [page_z])) < 10)%nat) /\
  exists items w' issued,
    traverse plain 10 (all world0) = Some (items, Exhausted, Finished, w') /\
    calls w' = calls world0 ++ issued /\
    length issued = length ([page_a; page_empty] ++ [page_z]) /\
    script w' = [inr page_y] /\
    next plain Finished w' = (StopIteration, Finished, w') /\
    forall k r, [page_a; page_empty] !! k = Some r -> is_Some (issued !! S k).
Proof.
  assert (Hc : Forall complete ([page_a; page_empty] ++ [page_z])) by pages_hold.
  assert (Hk : Forall has_key [page_a; page_empty]) by pages_hold.
  assert (Hf : (length (flat_map items_of ([page_a; page_empty] ++ [page_z])) < 10)%nat)
    by (cbn; lia).
  split; [repeat split; assumption|].
  exact (traversal_stops_after_last_page plain world0 [page_a; page_empty] page_z
           [inr page_y] 10 Hc Hk eq_refl eq_refl Hf).
Defined.

Lemma continuation_threading_witness :
  (Forall complete ([page_a; page_empty] ++ [page_z]) /\
   Forall has_key [page_a; page_empty] /\
   LastEvaluatedKey page_z = None /\
   script world0 = map inr ([page_a; page_empty] ++ [page_z]) ++ [inr page_y] /\
   (length (flat_map items_of ([page_a; page_empty] ++ [page_z])) < 10)%nat /\
   [page_a; page_empty] !! 1%nat = Some page_empty /\
   LastEvaluatedKey page_empty = Some [("id", VStr "m")]) /\
  exists items w' c pk pk1,
    traverse plain 10 (all world0) = Some (items, Exhausted, Finished, w') /\
    calls w' !! (length (calls world0) + 1)%nat = Some (c, pk) /\
    calls w' !! (length (calls world0) + 2)%nat = Some (c, pk1) /\
    pk1 !! "ExclusiveStartKey" = Some (VDict [("id", VStr "m")]) /\
    forall name, name <> "ExclusiveStartKey" -> pk1 !! name = pk !! name.
Proof.
  assert (Hc : Forall complete ([page_a; page_empty] ++ [page_z])) by pages_hold.
  assert (Hk : Forall has_key [page_a; page_empty]) by pages_hold.
  assert (Hf : (length (flat_map items_of ([page_a; page_empty] ++ [page_z])) < 10)%nat)
    by (cbn; lia).
  split; [repeat split; assumption|].
  exact (continuation_threading plain world0 [page_a; page_empty] page_z
           [inr page_y] 10 1 page_empty [("id", VStr "m")]
           Hc Hk eq_refl eq_refl Hf eq_refl eq_refl).
Defined.



(** C4 (as stated, refuted): the cursor of [world0] is run to its end and
    then iterated again; the second iteration yields an item and issues a
    fourth remote call. *)
Lemma exhausted_cursor_iterates_again_counterexample :
  traverse plain 10 (all world0)
    = Some ([VStr "a1"; VStr "a2"; VStr "z1"], Exhausted, Finished, world1) /\
  traverse plain 10 world1 = Some ([VStr "y1"], Exhausted, Finished, world2) /\
  length (calls world1) = 3%nat /\
  length (calls world2) = 4%nat.
Proof. repeat split. Qed.

Lemma iterating_again_starts_anew_witness :
  (Forall complete ([page_a; page_empty] ++ [page_z]) /\
   Forall has_key [page_a; page_empty] /\
   LastEvaluatedKey page_z = None /\
   Forall complete ([] ++ [page_y]) /\ Forall has_key [] /\
   LastEvaluatedKey page_y = None /\
   script world0
     = map inr ([page_a; page_empty] ++ [page_z]) ++ map inr ([] ++ [page_y]) ++ [] /\
   (length (flat_map items_of ([page_a; page_empty] ++ [page_z])) < 10)%nat /\
   (length (flat_map items_of ([] ++ [page_y])) < 10)%nat) /\
  exists items1 w1 items2 w2 issued,
    traverse plain 10 (all world0) = Some (items1, Exhausted, Finished, w1) /\
    traverse plain 10 w1 = Some (items2, Exhausted, Finished, w2) /\
    items2 = [VStr "y1"] /\
    calls w2 = calls w1 ++ issued /\
    length issued = 1%nat /\
    issued !! 0%nat = Some (_command (query w1), (_get_params (query w1)).1) /\
    pages (cursor w2) = 4%Z /\
    next plain Finished w1 = (StopIteration, Finished, w1).
Proof.
  assert (Hc : Forall complete ([page_a; page_empty] ++ [page_z])) by pages_hold.
  assert (Hk : Forall has_key [page_a; page_empty]) by pages_hold.
  assert (Hf : (length (flat_map items_of ([page_a; page_empty] ++ [page_z])) < 10)%nat)
    by (cbn; lia).
  assert (Hc2 : Forall complete ([] ++ [page_y])) by pages_hold.
  assert (Hf2 : (length (flat_map items_of ([] ++ [page_y])) < 10)%nat)
    by (cbn; lia).
  split; [repeat split; first [assumption | apply Forall_nil_2 | reflexivity]|].
  exact (iterating_again_starts_anew plain world0 [page_a; page_empty] []
           page_z page_y [] 10 Hc Hk eq_refl Hc2 (Forall_nil_2 _) eq_refl eq_refl
           Hf Hf2).
Defined.

(** C5 (as stated, refuted): the operation of [world0] has no parameter;
    after a single-page execution, and after the first pull of a traversal,
    its own parameters hold [TableName]. *)
Lemma execution_writes_parameters_counterexample :
  _params (query world0) = ∅ /\
  _params (query (single world0).2) = {["TableName" := VStr "dev-books"]} /\
  _params (query (next plain Created (all world0)).2)
    = {["TableName" := VStr "dev-books"]} /\
  _params (query (single world0).2) <> _params (query world0).
Proof.
  repeat split.
  intros H. apply (f_equal (fun m => m !! "TableName")) in H.
  vm_compute in H. discriminate H.
Qed.

Lemma execution_and_the_operation_witness :
  (pulls plain 2 Created (all world_index_query)
     = ([Yield (VStr "a1"); Yield (VStr "a2")], page_end, world_page_end) /\
   page_end <> Created) /\
  (query (single world_page_end).2 = (_get_params (query world_page_end)).2 /\
   query (next plain Created world_page_end).2
     = (_get_params (query world_page_end)).2 /\
   _params (_get_params (query world_page_end)).2 !! "TableName"
     = Some (VStr "dev-events") /\
   _params (_get_params (query world_page_end)).2 !! "IndexName"
     = Some (VStr "by_ts") /\
   _params (_get_params (query world_page_end)).2 !! "KeyConditions"
     = Some (VDict [key_condition id_field (VStr "a");
                    key_condition ts_field (VInt 5)]) /\
   forall k, k <> "TableName" -> k <> "IndexName" -> k <> "KeyConditions" ->
     _params (_get_params (query world_page_end)).2 !! k
     = _params (query world_page_end) !! k) /\
  query (next plain page_end world_page_end).2 = query world_page_end /\
  next plain page_end
    (set_query world_page_end
       (set_range_value
          (set_params (query world_page_end) {["Limit" := VInt 1]})
          (Provided (VInt 9))))
  = with_query
      (set_range_value
         (set_params (query world_page_end) {["Limit" := VInt 1]})
         (Provided (VInt 9)))
      (next plain page_end world_page_end) /\
  (next plain page_end
     (set_query world_page_end
        (set_range_value
           (set_params (query world_page_end) {["Limit" := VInt 1]})
           (Provided (VInt 9))))).1
  = (Yield (VStr "z1"),
     Suspended
       (<["ExclusiveStartKey" := VDict [("id", VStr "m")]]>
          (<["ExclusiveStartKey" := VDict [("id", VStr "a2")]]>
             (_get_params an_index_query).1))
       page_z hash_range_table []) /\
  calls (next plain page_end
           (set_query world_page_end
              (set_range_value
                 (set_params (query world_page_end) {["Limit" := VInt 1]})
                 (Provided (VInt 9))))).2
  = [(client_query, (_get_params an_index_query).1);
     (client_query,
      <["ExclusiveStartKey" := VDict [("id", VStr "a2")]]>
        (_get_params an_index_query).1);
     (client_query,
      <["ExclusiveStartKey" := VDict [("id", VStr "m")]]>
        (<["ExclusiveStartKey" := VDict [("id", VStr "a2")]]>
           (_get_params an_index_query).1))].
Proof.
  assert (Hg : page_end <> Created) by discriminate.
  split; [split; [reflexivity|exact Hg]|].
  exact (execution_and_the_operation plain world_page_end page_end
           {["Limit" := VInt 1]} (Provided (VInt 9)) Hg).
Defined.

Lemma enumerated_modes_validated_witness :
  (VStr "COUNT" ∈ [VStr "ALL_ATTRIBUTES"; VStr "ALL_PROJECTED_ATTRIBUTES";
                   VStr "COUNT"; VStr "SPECIFIC_ATTRIBUTES"] /\
   VStr "COUNT" ∉ [VStr "INDEXES"; VStr "TOTAL"; VStr "NONE"]) /\
  (select (VStr "COUNT") a_limited_scan
     = inr (set_params a_limited_scan
              (<["Select" := VStr "COUNT"]> (_params a_limited_scan))) /\
   (exists q', select (VStr "COUNT") a_limited_scan = inr q' /\
      _params q' !! "Select" = Some (VStr "COUNT") /\
      (forall k, k <> "Select" -> _params q' !! k = _params a_limited_scan !! k) /\
      (_get_params q').1 !! "Select" = Some (VStr "COUNT")) /\
   (configure (select (VStr "COUNT")) world_limited).1 = None /\
   _params (query (configure (select (VStr "COUNT")) world_limited).2) !! "Select"
     = Some (VStr "COUNT") /\
   calls (snd (configure (select (VStr "COUNT")) world_limited)) = calls world_limited /\
   script (snd (configure (select (VStr "COUNT")) world_limited))
     = script world_limited) /\
  consumed_capacity (VStr "COUNT") a_limited_scan = inl AssertionError /\
  configure (consumed_capacity (VStr "COUNT")) world_limited
    = (Some AssertionError, world_limited).
Proof.
  assert (Hin : VStr "COUNT" ∈ [VStr "ALL_ATTRIBUTES"; VStr "ALL_PROJECTED_ATTRIBUTES";
                                VStr "COUNT"; VStr "SPECIFIC_ATTRIBUTES"]).
  { apply list_elem_of_In. cbn. auto. }
  assert (Hout : VStr "COUNT" ∉ [VStr "INDEXES"; VStr "TOTAL"; VStr "NONE"]).
  { intros H. apply list_elem_of_In in H. cbn in H.
    destruct H as [H|[H|[H|[]]]]; discriminate H. }
  split; [split; assumption|].
  destruct (enumerated_modes_validated (VStr "COUNT") a_limited_scan world_limited)
    as (Hsel & _ & _ & Hcap).
  split; [exact (Hsel Hin)|exact (Hcap Hout)].
Defined.

(** ** Further properties on concrete stores *)

Lemma backend_failure_aborts_witness :
  (Forall complete [page_a] /\ Forall has_key [page_a] /\
   script world_throttled
     = map inr [page_a] ++ inl (BackendError "throttled") :: [inr page_z] /\
   (length (flat_map items_of [page_a]) < 10)%nat) /\
  exists w',
    traverse plain 10 (all world_throttled)
      = Some ([VStr "a1"; VStr "a2"], Failed (BackendError "throttled"),
              Finished, w') /\
    length (calls w') = 2%nat /\
    pages (cursor w') = 1%Z /\
    count (cursor w') = 2%Z /\
    scanned (cursor w') = 5%Z /\
    script w' = [inr page_z].
Proof.
  assert (Hc : Forall complete [page_a]) by pages_hold.
  assert (Hk : Forall has_key [page_a]) by pages_hold.
  assert (Hf : (length (flat_map items_of [page_a]) < 10)%nat) by (cbn; lia).
  split; [repeat split; assumption|].
  exact (backend_failure_aborts plain world_throttled [page_a]
           (BackendError "throttled") [inr page_z] 10 Hc Hk eq_refl Hf).
Defined.

Lemma missing_items_raise_after_counting_witness :
  (Forall complete [page_a] /\ Forall has_key [page_a] /\
   Items page_count_only = None /\ Count page_count_only = Some 4%Z /\
   ScannedCount page_count_only = Some 9%Z /\
   script world_count_only = map inr [page_a] ++ inr page_count_only :: [] /\
   (length (flat_map items_of [page_a]) < 10)%nat) /\
  exists w',
    traverse plain 10 (all world_count_only)
      = Some ([VStr "a1"; VStr "a2"], Failed (KeyError "Items"), Finished, w') /\
    length (calls w') = 2%nat /\
    pages (cursor w') = 2%Z /\
    count (cursor w') = 6%Z /\
    scanned (cursor w') = 14%Z.
Proof.
  assert (Hc : Forall complete [page_a]) by pages_hold.
  assert (Hk : Forall has_key [page_a]) by pages_hold.
  assert (Hf : (length (flat_map items_of [page_a]) < 10)%nat) by (cbn; lia).
  split; [repeat split; assumption|].
  exact (missing_items_raise_after_counting plain world_count_only [page_a]
           page_count_only 4 9 [] 10 Hc Hk eq_refl eq_refl eq_refl eq_refl Hf).
Defined.

Lemma missing_count_raises_witness :
  (Forall complete [page_a] /\ Forall has_key [page_a] /\
   Count page_no_count = None /\
   script world_no_count = map inr [page_a] ++ inr page_no_count :: [] /\
   (length (flat_map items_of [page_a]) < 10)%nat) /\
  exists w',
    traverse plain 10 (all world_no_count)
      = Some ([VStr "a1"; VStr "a2"], Failed (KeyError "Count"), Finished, w') /\
    pages (cursor w') = 2%Z /\
    count (cursor w') = 2%Z /\
    scanned (cursor w') = 5%Z.
Proof.
  assert (Hc : Forall complete [page_a]) by pages_hold.
  assert (Hk : Forall has_key [page_a]) by pages_hold.
  assert (Hf : (length (flat_map items_of [page_a]) < 10)%nat) by (cbn; lia).
  split; [repeat split; assumption|].
  exact (missing_count_raises plain world_no_count [page_a] page_no_count []
           10 Hc Hk eq_refl eq_refl Hf).
Defined.

Lemma parameters_sent_with_every_page_witness :
  (Forall complete ([page_a; page_empty] ++ [page_z]) /\
   Forall has_key [page_a; page_empty] /\
   LastEvaluatedKey page_z = None /\
   script world_limited = map inr ([page_a; page_empty] ++ [page_z]) ++ [] /\
   (length (flat_map items_of ([page_a; page_empty] ++ [page_z])) < 10)%nat) /\
  exists items w',
    traverse plain 10 (all world_limited) = Some (items, Exhausted, Finished, w') /\
    calls w' !! length (calls world_limited)
      = Some (_command (query world_limited), (_get_params (query world_limited)).1) /\
    (calls w' !! (length (calls world_limited) + 2)%nat
       = Some (client_scan,
               <["ExclusiveStartKey" := VDict [("id", VStr "m")]]>
                 (_get_params a_limited_scan).1) ->
     client_scan = _command (query world_limited) /\
     (forall k, k <> "ExclusiveStartKey" ->
        (<["ExclusiveStartKey" := VDict [("id", VStr "m")]]>
           (_get_params a_limited_scan).1) !! k
        = (_get_params (query world_limited)).1 !! k) /\
     (forall k, k <> "ExclusiveStartKey" -> k <> "TableName" ->
        k <> "IndexName" -> k <> "KeyConditions" ->
        (<["ExclusiveStartKey" := VDict [("id", VStr "m")]]>
           (_get_params a_limited_scan).1) !! k
        = _params (query world_limited) !! k)).
Proof.
  assert (Hc : Forall complete ([page_a; page_empty] ++ [page_z])) by pages_hold.
  assert (Hk : Forall has_key [page_a; page_empty]) by pages_hold.
  assert (Hf : (length (flat_map items_of ([page_a; page_empty] ++ [page_z])) < 10)%nat)
    by (cbn; lia).
  split; [repeat split; assumption|].
  exact (parameters_sent_with_every_page plain world_limited [page_a; page_empty]
           page_z [] 10 2 client_scan
           (<["ExclusiveStartKey" := VDict [("id", VStr "m")]]>
              (_get_params a_limited_scan).1)
           Hc Hk eq_refl eq_refl Hf).
Defined.

Lemma single_issues_one_call_witness :
  script world0 = inr page_a :: [inr page_empty; inr page_z; inr page_y] /\
  (single world0).1 = inr page_a /\
  calls (single world0).2
    = calls world0 ++ [(_command (query world0), (_get_params (query world0)).1)] /\
  script (single world0).2 = [inr page_empty; inr page_z; inr page_y] /\
  cursor (single world0).2 = cursor world0.
Proof.
  split; [reflexivity|].
  exact (single_issues_one_call world0 (inr page_a)
           [inr page_empty; inr page_z; inr page_y] eq_refl).
Defined.

Lemma one_page_traversal_is_single_witness :
  (complete page_z /\ LastEvaluatedKey page_z = None /\
   script world_one_page = inr page_z :: [inr page_y] /\
   (length (items_of page_z) < 10)%nat) /\
  exists items w1,
    traverse plain 10 (all world_one_page) = Some (items, Exhausted, Finished, w1) /\
    (single world_one_page).1 = inr page_z /\
    QueryResult__iter__ plain (query (single world_one_page).2) page_z = inr items /\
    calls w1 = calls (single world_one_page).2 /\
    query w1 = query (single world_one_page).2 /\
    script w1 = script (single world_one_page).2.
Proof.
  assert (Hc : complete page_z) by pages_hold.
  assert (Hf : (length (items_of page_z) < 10)%nat) by (cbn; lia).
  split; [split; [exact Hc|split; [reflexivity|split; [reflexivity|exact Hf]]]|].
  exact (one_page_traversal_is_single plain world_one_page page_z [inr page_y]
           10 Hc eq_refl eq_refl Hf).
Defined.

Lemma injected_parameters_at_execution_witness :
  ("Limit" <> "TableName" /\ "Limit" <> "IndexName" /\ "Limit" <> "KeyConditions") /\
  (_get_params (params {["TableName" := VStr "other"; "Limit" := VInt 5]} a_scan)).1
    !! "TableName" = Some (VStr "dev-books") /\
  (_get_params (params {["TableName" := VStr "other"; "Limit" := VInt 5]} a_scan)).1
    !! "Limit" = Some (VInt 5).
Proof.
  assert (H1 : "Limit" <> "TableName") by discriminate.
  assert (H2 : "Limit" <> "IndexName") by discriminate.
  assert (H3 : "Limit" <> "KeyConditions") by discriminate.
  split; [repeat split; assumption|].
  destruct (injected_parameters_at_execution
              {["TableName" := VStr "other"; "Limit" := VInt 5]} a_scan)
    as (Ht & _ & _ & Hk).
  split; [exact Ht|]. exact (Hk "Limit" H1 H2 H3).
Defined.

Lemma key_conditions_shape_witness :
  __class__ a_ranged_query = Query /\
  exists kc,
    (_get_params a_ranged_query).1 !! "KeyConditions" = Some (VDict kc) /\
    NoDup (map fst kc) /\
    (length kc <= 2)%nat /\
    (length kc <= length (Table.key_fields (table a_ranged_query)))%nat /\
    (forall k, k ∈ map fst kc ->
       k ∈ map Field.name (Table.key_fields (table a_ranged_query))) /\
    (hash_value a_ranged_query = NOT_PROVIDED ->
     _range_value a_ranged_query = NOT_PROVIDED -> kc = []).
Proof.
  split; [reflexivity | apply (key_conditions_shape a_ranged_query); reflexivity].
Defined.

Lemma copy_of_index_scan_witness :
  (__class__ an_index_scan = Scan /\ index an_index_scan = Some by_ts) /\
  (exists q1, copy an_index_scan = inr q1 /\ index q1 = None /\
     (_get_params q1).1 !! "IndexName" = _params an_index_scan !! "IndexName") /\
  (exists q2, copy (_get_params an_index_scan).2 = inr q2 /\ index q2 = None /\
     (_get_params q2).1 !! "IndexName" = Some (VStr (Index.name by_ts))).
Proof.
  split; [split; reflexivity|].
  exact (copy_of_index_scan an_index_scan by_ts eq_refl eq_refl).
Defined.

Lemma constructors_check_arity_witness :
  (length [PSession dev] <> 2%nat /\ length [PSession dev; PTable hash_table] <> 3%nat) /\
  (exists msg, new Scan [PSession dev] = inl (TypeError msg)) /\
  (exists msg, new Query [PSession dev; PTable hash_table] = inl (TypeError msg)).
Proof.
  assert (H1 : length [PSession dev] <> 2%nat) by (cbn; lia).
  assert (H2 : length [PSession dev; PTable hash_table] <> 3%nat) by (cbn; lia).
  split; [split; assumption|]. split.
  - exact (proj1 (constructors_check_arity [PSession dev]) H1).
  - exact (proj1 (proj2 (constructors_check_arity [PSession dev; PTable hash_table])) H2).
Defined.

Lemma index_object_params_witness :
  (new Scan [PSession dev; PIndex by_ts] = inr an_index_scan /\
   index an_index_scan = Some by_ts) /\
  table an_index_scan = Index.table by_ts /\
  fst (_get_params an_index_scan) !! "IndexName" = Some (VStr (Index.name by_ts)) /\
  fst (_get_params an_index_scan) !! "TableName"
    = Some (VStr (Table.table_name (Index.table by_ts) (session an_index_scan))).
Proof.
  split; [split; reflexivity|].
  exact (index_object_params Scan [PSession dev; PIndex by_ts] an_index_scan by_ts
           eq_refl eq_refl).
Defined.
